(** * xblock/scorable.py: the rescoring protocol of [ScorableXBlockMixin]

    A shallow embedding of [xblock/scorable.py].  A block is an object with
    four overridable methods ([allows_rescore], [get_score], [set_score],
    [calculate_score]) and a [location]; [rescore] orchestrates them and
    reports to the runtime with [runtime.publish].  The embedding threads a
    world (the block's own state, the heap of dictionaries the code builds,
    and the chronological trace of method calls and runtime calls) through
    a state-and-exception monad, so that "calls", "publishes", "raises" and
    "does not mutate" are all statements about the final world. *)

From Stdlib Require Import QArith.
From stdpp Require Import gmap strings list fin_maps.

Local Open Scope string_scope.
Local Open Scope list_scope.

(** ** Values *)

(** [Score = namedtuple('Score', ['earned', 'total'])].  Numbers are exact
    rationals; Python's [==] and [>] on them are [Qeq_bool] and the
    negation of [Qle_bool]. *)
Record Score : Type := mkScore { earned : Q; total : Q }.

(** Values stored in the published dictionaries.  [VOrderedDict] is the
    result of [namedtuple._asdict()]. *)
Inductive value : Type :=
| VBool (b : bool)
| VStr (s : string)
| VNum (q : Q)
| VOrderedDict (items : list (string * Q)).

(** [Score._asdict()]: the fields in declaration order. *)
Definition Score_asdict (s : Score) : value :=
  VOrderedDict [("earned", earned s); ("total", total s)].

(** What [get_score] and [calculate_score] can hand back: a [Score], or
    [None] (no persisted score; also what a method body made only of a
    docstring returns). *)
Inductive pyval : Type :=
| PNone
| PScore (s : Score).

(** Exceptions.  All but [KeyboardInterrupt] derive from [Exception]. *)
Inductive exn : Type :=
| TypeError (msg : string)
| ValueError (msg : string)
| AttributeError (msg : string)
| NotImplementedError
| SystemError (msg : string)
| ArithmeticError (msg : string)
| KeyboardInterrupt.

Definition is_Exception (e : exn) : bool :=
  match e with
  | KeyboardInterrupt => false
  | _ => true
  end.

Inductive outcome (A : Type) : Type :=
| Return (a : A)
| Raise (e : exn).
Arguments Return {A} a.
Arguments Raise {A} e.

Inductive python_version : Type := Py2 | Py3.

(** ** Tuple comparison

    [new_score > original_score] compares two named tuples.  CPython's
    tuple comparison walks both tuples to the first index whose items are
    not [==], and compares those two items; when one tuple is a prefix of
    the other the lengths decide. *)
Definition num_gt (x y : Q) : bool := negb (Qle_bool x y).

Fixpoint tuple_gt (v w : list Q) : bool :=
  match v, w with
  | x :: v', y :: w' => if Qeq_bool x y then tuple_gt v' w' else num_gt x y
  | _ :: _, [] => true
  | [], _ => false
  end.

Definition as_tuple (s : Score) : list Q := [earned s; total s].

Definition score_gt (new old : Score) : bool :=
  tuple_gt (as_tuple new) (as_tuple old).

(** The ordering as the specification words it: lexicographic on
    (earned, total), earned first. *)
Definition lex_gt (new old : Score) : Prop :=
  (earned old < earned new)%Q \/
  ((earned new == earned old)%Q /\ (total old < total new)%Q).

(** ** The world *)

Abbreviation dict := (gmap string value).
Abbreviation loc := nat.

(** One entry per observable step, oldest first. *)
Inductive action : Type :=
| Service (name : string)
| Allows_rescore
| Get_score
| Calculate_score
| Set_score (v : pyval)
| Publish (name : string) (obj : loc) (payload : dict).

Record world (St : Type) : Type := World {
  block : St;
  heap : list dict;
  trace : list action
}.
Arguments World {St} block heap trace.
Arguments block {St} w.
Arguments heap {St} w.
Arguments trace {St} w.

Definition set_block {St} (b : St) (w : world St) : world St :=
  World b (heap w) (trace w).
Definition set_heap {St} (h : list dict) (w : world St) : world St :=
  World (block w) h (trace w).
Definition set_trace {St} (t : list action) (w : world St) : world St :=
  World (block w) (heap w) t.

(** ** The monad: state that survives a raised exception *)

Definition M (St A : Type) : Type := world St -> outcome A * world St.

Definition ret {St A} (a : A) : M St A := fun w => (Return a, w).

Definition raise {St A} (e : exn) : M St A := fun w => (Raise e, w).

Definition bind {St A B} (m : M St A) (k : A -> M St B) : M St B :=
  fun w =>
    match m w with
    | (Return a, w') => k a w'
    | (Raise e, w') => (Raise e, w')
    end.

Declare Scope py_scope.
Delimit Scope py_scope with py.
Notation "x <- m ;; k" := (bind m (fun x => k))
  (at level 100, m at next level, right associativity) : py_scope.
Notation "m ;; k" := (bind m (fun _ => k))
  (at level 100, right associativity) : py_scope.
Local Open Scope py_scope.

(** [try: m / except Exception: ...]: the handler sees the exception only
    when it derives from [Exception]; anything else keeps propagating. *)
Definition try_except {St A} (m : M St A) : M St (exn + A) :=
  fun w =>
    match m w with
    | (Return a, w') => (Return (inr a), w')
    | (Raise e, w') =>
        if is_Exception e then (Return (inl e), w') else (Raise e, w')
    end.

Definition log {St} (a : action) : M St unit :=
  fun w => (Return tt, set_trace (trace w ++ [a]) w).

(** *** Dictionaries on the heap *)

Definition dangling {A} : outcome A :=
  Raise (SystemError "invalid object reference").

(** A dictionary display [{...}] or [dict()]: a new object. *)
Definition new_dict {St} (d : dict) : M St loc :=
  fun w => (Return (length (heap w)), set_heap (heap w ++ [d]) w).

(** [dst.update(src)]: every key of [src] is written into [dst], in place. *)
Definition dict_update {St} (dst src : loc) : M St unit :=
  fun w =>
    match heap w !! dst, heap w !! src with
    | Some d, Some s => (Return tt, set_heap (<[dst := s ∪ d]> (heap w)) w)
    | _, _ => (dangling, w)
    end.

(** [o[k] = v], in place. *)
Definition dict_setitem {St} (o : loc) (k : string) (v : value) : M St unit :=
  fun w =>
    match heap w !! o with
    | Some d => (Return tt, set_heap (<[o := <[k := v]> d]> (heap w)) w)
    | None => (dangling, w)
    end.

(** [self.runtime.publish(name, o)]: the runtime is handed the object [o];
    the trace keeps its identity and its contents at that moment. *)
Definition runtime_publish {St} (name : string) (o : loc) : M St unit :=
  fun w =>
    match heap w !! o with
    | Some d => log (Publish name o d) w
    | None => (dangling, w)
    end.

(** ** The block *)

(** The overridable surface of a block with private state [St].
    [allows_rescore], [get_score] and [calculate_score] only read the
    block ("Must not calculate a new score", "should not modify the state
    of the XBlock"); [set_score] returns the updated block. *)
Record Scorable (St : Type) : Type := {
  location : string;
  allows_rescore : St -> bool;
  get_score : St -> outcome pyval;
  set_score : pyval -> St -> outcome St;
  calculate_score : St -> outcome pyval
}.
Arguments location {St} _.
Arguments allows_rescore {St} _ _.
Arguments get_score {St} _ _.
Arguments set_score {St} _ _ _.
Arguments calculate_score {St} _ _.

(** What the code needs from its surroundings: the interpreter's major
    version (ordering [None] against a tuple differs) and the [ugettext]
    of the runtime's i18n service. *)
Record Host : Type := {
  python : python_version;
  ugettext : string -> string
}.

Section Mixin.

Context {St : Type}.
Variable self : Scorable St.
Variable host : Host.

(** *** Method calls on [self] and on [self.runtime] *)

Definition runtime_service (name : string) : M St (string -> string) :=
  log (Service name) ;; ret (ugettext host).

Definition call_allows_rescore : M St bool :=
  log Allows_rescore ;; fun w => (Return (allows_rescore self (block w)), w).

Definition call_get_score : M St pyval :=
  log Get_score ;; fun w => (get_score self (block w), w).

Definition call_calculate_score : M St pyval :=
  log Calculate_score ;; fun w => (calculate_score self (block w), w).

Definition call_set_score (v : pyval) : M St unit :=
  log (Set_score v) ;;
  fun w =>
    match set_score self v (block w) with
    | Return b => (Return tt, set_block b w)
    | Raise e => (Raise e, w)
    end.

(** *** Attribute access and operators on [pyval] *)

Definition no_attribute {A} (name : string) : M St A :=
  raise (AttributeError
           ("'NoneType' object has no attribute '" ++ name ++ "'")%string).

Definition attr_earned (v : pyval) : M St Q :=
  match v with PScore s => ret (earned s) | PNone => no_attribute "earned" end.

Definition attr_total (v : pyval) : M St Q :=
  match v with PScore s => ret (total s) | PNone => no_attribute "total" end.

Definition _asdict (v : pyval) : M St value :=
  match v with
  | PScore s => ret (Score_asdict s)
  | PNone => no_attribute "_asdict"
  end.

Definition is_None (v : pyval) : bool :=
  match v with PNone => true | PScore _ => false end.

Definition type_name (v : pyval) : string :=
  match v with PNone => "NoneType" | PScore _ => "Score" end.

(** [a > b].  Python 2 orders [None] below every other object; Python 3
    refuses to order [None]. *)
Definition py_gt (a b : pyval) : M St bool :=
  match a, b with
  | PScore x, PScore y => ret (score_gt x y)
  | _, _ =>
      match python host with
      | Py2 => ret (negb (is_None a))
      | Py3 =>
          raise (TypeError
                   ("'>' not supported between instances of '" ++
                    type_name a ++ "' and '" ++ type_name b ++ "'")%string)
      end
  end.

(** [six.text_type]: the location is already text. *)
Definition text_type (s : string) : string := s.

(** *** The mixin's methods *)

Definition _base_event_info : M St loc :=
  new_dict {[ "usage_key" := VStr (text_type (location self)) ]}.

Definition _publish_scoring_event (name : string) (data : loc) : M St unit :=
  logged <- new_dict ∅ ;;
  dict_update logged data ;;
  info <- _base_event_info ;;
  dict_update logged info ;;
  runtime_publish name logged.

Definition _publish_grade (only_if_higher : option bool) : M St unit :=
  score <- call_get_score ;;
  v <- attr_earned score ;;
  m <- attr_total score ;;
  grade_dict <- new_dict (<["max_value" := VNum m]> {[ "value" := VNum v ]}) ;;
  match only_if_higher with
  | Some b => dict_setitem grade_dict "only_if_higher" (VBool b)
  | None => ret tt
  end ;;
  runtime_publish "grade" grade_dict.

Definition failure_data (tag : string) : dict :=
  {[ "failure" := VStr tag ]}.

Definition result_data (tag : string) (original new : value) : dict :=
  <["new_score" := new]>
    (<["original_score" := original]> {[ "result" := VStr tag ]}).

Definition rescore (only_if_higher : bool) : M St bool :=
  gettext <- runtime_service "i18n" ;;
  allowed <- call_allows_rescore ;;
  if negb allowed then
    data <- new_dict (failure_data "unsupported") ;;
    _publish_scoring_event "rescore_failure" data ;;
    raise (TypeError (gettext "Problem does not support rescoring"))
  else
    original_score <- call_get_score ;;
    if is_None original_score then
      data <- new_dict (failure_data "unanswered") ;;
      _publish_scoring_event "rescore_failure" data ;;
      raise (ValueError
               (gettext "Problem must be answered before it can be rescored."))
    else
      attempt <- try_except call_calculate_score ;;
      match attempt with
      | inl _ =>
          data <- new_dict (failure_data "calculation error") ;;
          _publish_scoring_event "rescore_failure" data ;;
          ret false
      | inr new_score =>
          higher <- (if negb only_if_higher then ret true
                     else py_gt new_score original_score) ;;
          if (higher : bool) then
            call_set_score new_score ;;
            _publish_grade (Some only_if_higher) ;;
            o <- _asdict original_score ;;
            n <- _asdict new_score ;;
            data <- new_dict (result_data "score updated" o n) ;;
            _publish_scoring_event "rescore_result" data ;;
            ret true
          else
            o <- _asdict original_score ;;
            n <- _asdict new_score ;;
            data <- new_dict (result_data "score not changed" o n) ;;
            _publish_scoring_event "rescore_result" data ;;
            ret false
      end.

End Mixin.

(** *** The mixin's own method bodies *)

Definition default_allows_rescore {St} (_ : St) : bool := true.
Definition default_get_score {St} (_ : St) : outcome pyval :=
  Raise NotImplementedError.
Definition default_set_score {St} (_ : pyval) (_ : St) : outcome St :=
  Raise NotImplementedError.
Definition default_calculate_score {St} (_ : St) : outcome pyval :=
  Return PNone.

(** [ScorableXBlockMixin] with nothing overridden; the host class supplies
    [location]. *)
Definition ScorableXBlockMixin (St : Type) (here : string) : Scorable St := {|
  location := here;
  allows_rescore := default_allows_rescore;
  get_score := default_get_score;
  set_score := default_set_score;
  calculate_score := default_calculate_score
|}.

(** *** [StubScorableBlock] of test_scorable.py *)

(** The scores of test_scorable.py. *)
Definition calculated : Score := mkScore (16 # 10) 2.
Definition low : Score := mkScore 0 1.
Definition full : Score := mkScore 2 2.

Record stub_state : Type := Stub { result : pyval; _allows_rescore : bool }.

Definition StubScorableBlock : Scorable stub_state := {|
  location := "Here";
  allows_rescore := _allows_rescore;
  get_score := fun st => Return (result st);
  set_score := fun v st => Return (Stub v (_allows_rescore st));
  calculate_score := fun _ => Return (PScore calculated)
|}.

(** The stub with [calculate_score] left as the mixin defines it. *)
Definition UncalculatedBlock : Scorable stub_state := {|
  location := "Here";
  allows_rescore := _allows_rescore;
  get_score := fun st => Return (result st);
  set_score := fun v st => Return (Stub v (_allows_rescore st));
  calculate_score := default_calculate_score
|}.

(** The stub with a [calculate_score] that divides by zero. *)
Definition FailingBlock : Scorable stub_state := {|
  location := "Here";
  allows_rescore := _allows_rescore;
  get_score := fun st => Return (result st);
  set_score := fun v st => Return (Stub v (_allows_rescore st));
  calculate_score := fun _ => Raise (ArithmeticError "float division by zero")
|}.

Definition cpython2 : Host := {| python := Py2; ugettext := fun s => s |}.
Definition cpython3 : Host := {| python := Py3; ugettext := fun s => s |}.

Definition fresh_world {St} (b : St) : world St := World b [] [].

(** The blocks test_scorable.py starts from. *)
Definition w_low : world stub_state := fresh_world (Stub (PScore low) true).
Definition w_full : world stub_state := fresh_world (Stub (PScore full) true).
Definition w_unanswered : world stub_state := fresh_world (Stub PNone true).
Definition w_locked : world stub_state := fresh_world (Stub (PScore low) false).

(** ** Observers on traces *)

(** The actions a computation appends to the trace when run from [w]. *)
Definition steps {St A} (m : M St A) (w : world St) : list action :=
  drop (length (trace w)) (trace (snd (m w))).

(** Audit events are what [_publish_scoring_event] is used for: the
    events named [rescore_failure] and [rescore_result]. *)
Definition is_audit_name (name : string) : bool :=
  String.eqb name "rescore_failure" || String.eqb name "rescore_result".

Definition audit_events (tr : list action) : list (string * dict) :=
  flat_map (fun a => match a with
                     | Publish name _ d =>
                         if is_audit_name name then [(name, d)] else []
                     | _ => []
                     end) tr.

Definition grade_records (tr : list action) : list dict :=
  flat_map (fun a => match a with
                     | Publish name _ d =>
                         if String.eqb name "grade" then [d] else []
                     | _ => []
                     end) tr.

Definition published_names (tr : list action) : list string :=
  flat_map (fun a => match a with Publish name _ _ => [name] | _ => [] end) tr.

Definition set_score_calls (tr : list action) : list pyval :=
  flat_map (fun a => match a with Set_score v => [v] | _ => [] end) tr.

Definition calculate_score_calls (tr : list action) : nat :=
  length (flat_map (fun a => match a with
                             | Calculate_score => [tt]
                             | _ => []
                             end) tr).

(** The payloads as the downstream consumer reads them. *)
Definition failure_audit {St} (self : Scorable St) (tag : string) : dict :=
  <["usage_key" := VStr (location self)]> (failure_data tag).

Definition result_audit {St} (self : Scorable St) (tag : string)
    (original new : Score) : dict :=
  <["usage_key" := VStr (location self)]>
    (result_data tag (Score_asdict original) (Score_asdict new)).

Definition grade_record (s : Score) (only_if_higher : option bool) : dict :=
  let d := <["max_value" := VNum (total s)]> {[ "value" := VNum (earned s) ]} in
  match only_if_higher with
  | Some b => <["only_if_higher" := VBool b]> d
  | None => d
  end.

(** The base context of every audit event. *)
Definition base_info {St} (self : Scorable St) : dict :=
  {[ "usage_key" := VStr (location self) ]}.

(** The world after an audit event with caller payload [d] has been
    published from [w], [pre] being the calls made before it: the payload,
    the copy and the base context are the three new objects. *)
Definition after_audit {St} (self : Scorable St) (w : world St) (b : St)
    (pre : list action) (name : string) (d : dict) : world St :=
  World b
        (heap w ++
           [d; <["usage_key" := VStr (location self)]> d; base_info self])
        (trace w ++ pre ++
           [Publish name (S (length (heap w)))
                    (<["usage_key" := VStr (location self)]> d)]).

(** "Caller-supplied fields take precedence over the base context": every
    key of the payload handed to [_publish_scoring_event] reaches the
    runtime with the value the caller gave it. *)
Definition caller_fields_take_precedence {St} (self : Scorable St) : Prop :=
  forall (name : string) (data logged : loc) (d payload : dict)
         (w : world St) (k : string) (v : value),
    is_audit_name name = true ->
    heap w !! data = Some d ->
    In (Publish name logged payload)
       (steps (_publish_scoring_event self name data) w) ->
    d !! k = Some v ->
    payload !! k = Some v.



(** "The grade record has [value] equal to [new_score.earned] and
    [max_value] equal to [new_score.total]", whenever the decision is to
    persist. *)
Definition grade_record_shows_new_score {St} (self : Scorable St)
    (host : Host) : Prop :=
  forall (only_if_higher : bool) (w : world St) (original new : Score)
         (grade : dict),
    allows_rescore self (block w) = true ->
    get_score self (block w) = Return (PScore original) ->
    calculate_score self (block w) = Return (PScore new) ->
    only_if_higher = false \/ lex_gt new original ->
    In grade (grade_records (steps (rescore self host only_if_higher) w)) ->
    grade !! "value" = Some (VNum (earned new)) /\
    grade !! "max_value" = Some (VNum (total new)).

(** ** What the specification asks of an implementing block *)

(** [set_score(s)] on the block [st] persists [s]: the call returns, and
    [get_score] then reads [s] back. *)
Definition persists {St} (self : Scorable St) (st : St) (s : Score) : Prop :=
  exists st', set_score self (PScore s) st = Return st' /\
              get_score self st' = Return (PScore s).

(** The block persists whatever score it is given, whenever. *)
Definition persists_scores {St} (self : Scorable St) : Prop :=
  forall (s : Score) (st : St), persists self st s.




(** ** Blocks that do not implement the capabilities *)

(** The stub with [set_score] left as the mixin defines it. *)
Definition UnsettableBlock : Scorable stub_state := {|
  location := "Here";
  allows_rescore := _allows_rescore;
  get_score := fun st => Return (result st);
  set_score := default_set_score;
  calculate_score := fun _ => Return (PScore calculated)
|}.

(** The stub with a [set_score] that clears the score instead of storing
    it. *)
Definition ForgetfulBlock : Scorable stub_state := {|
  location := "Here";
  allows_rescore := _allows_rescore;
  get_score := fun st => Return (result st);
  set_score := fun _ st => Return (Stub PNone (_allows_rescore st));
  calculate_score := fun _ => Return (PScore calculated)
|}.

(** The stub with a [calculate_score] that is interrupted from the
    keyboard. *)
Definition InterruptedBlock : Scorable stub_state := {|
  location := "Here";
  allows_rescore := _allows_rescore;
  get_score := fun st => Return (result st);
  set_score := fun v st => Return (Stub v (_allows_rescore st));
  calculate_score := fun _ => Raise KeyboardInterrupt
|}.

(** The stub with a [set_score] that rescales the score to a total of
    one before storing it. *)
Definition NormalizingBlock : Scorable stub_state := {|
  location := "Here";
  allows_rescore := _allows_rescore;
  get_score := fun st => Return (result st);
  set_score := fun v st =>
    Return (Stub match v with
                 | PScore s => PScore (mkScore (earned s / total s) 1)
                 | PNone => PNone
                 end (_allows_rescore st));
  calculate_score := fun _ => Return (PScore calculated)
|}.

(** A world in which a dictionary exists before the call. *)
Definition w_used : world stub_state :=
  World (Stub (PScore low) true) [failure_data "unsupported"] [].

(** * Proofs *)

Ltac simp_world := cbn [heap block trace negb orb is_None fst snd].

Ltac run_calls :=
  unfold rescore, runtime_service, call_allows_rescore, call_get_score,
    call_calculate_score, call_set_score, try_except, py_gt, _asdict,
    bind, log, ret, raise, new_dict, set_trace, set_heap, set_block;
  cbn [heap block trace negb is_None].

Ltac run_grade :=
  unfold _publish_grade, call_get_score, attr_earned, attr_total,
    no_attribute, dict_setitem, runtime_publish,
    bind, log, ret, raise, new_dict, set_trace, set_heap;
  simp_world.

(** ** Tuple comparison is the lexicographic order *)

Lemma num_gt_iff (x y : Q) : num_gt x y = true <-> (y < x)%Q.
Proof.
  unfold num_gt. rewrite negb_true_iff.
  split; intros H.
  - apply Qnot_le_lt. intros Hle. apply Qle_bool_iff in Hle. congruence.
  - destruct (Qle_bool x y) eqn:E; [|reflexivity].
    apply Qle_bool_iff in E. exfalso. exact (Qlt_not_le _ _ H E).
Qed.

Lemma score_gt_lex (new old : Score) :
  score_gt new old = true <-> lex_gt new old.
Proof.
  unfold score_gt, lex_gt, as_tuple; cbn [tuple_gt].
  destruct (Qeq_bool (earned new) (earned old)) eqn:E1.
  - apply Qeq_bool_iff in E1.
    destruct (Qeq_bool (total new) (total old)) eqn:E2.
    + apply Qeq_bool_iff in E2. split; [discriminate|].
      intros [H|[_ H]]; exfalso.
      * rewrite E1 in H. exact (Qlt_irrefl _ H).
      * rewrite E2 in H. exact (Qlt_irrefl _ H).
    + rewrite num_gt_iff. split; [intros H; right; split; assumption|].
      intros [H|[_ H]]; [|exact H].
      exfalso. rewrite E1 in H. exact (Qlt_irrefl _ H).
  - rewrite num_gt_iff. split; [intros H; left; exact H|].
    intros [H|[H _]]; [exact H|].
    apply Qeq_bool_iff in H. congruence.
Qed.

Lemma score_gt_false_lex (new old : Score) :
  score_gt new old = false <-> ~ lex_gt new old.
Proof.
  rewrite <- score_gt_lex. destruct (score_gt new old); split; congruence.
Qed.

(** ** The heap: allocation and update in place *)

Lemma heap_lookup_new (h r : list dict) (d : dict) :
  (h ++ d :: r) !! length h = Some d.
Proof. induction h as [|x h IH]; [reflexivity | exact IH]. Qed.

Lemma heap_lookup_next (h r : list dict) (d d' : dict) :
  (h ++ d :: d' :: r) !! S (length h) = Some d'.
Proof. induction h as [|x h IH]; [reflexivity | exact IH]. Qed.

Lemma heap_lookup_old (h r : list dict) (o : loc) (d : dict) :
  h !! o = Some d -> (h ++ r) !! o = Some d.
Proof.
  revert o; induction h as [|x h IH]; intros [|o] H; try discriminate.
  - exact H.
  - exact (IH o H).
Qed.

Lemma heap_insert_new (h r : list dict) (d d' : dict) :
  <[length h := d']> (h ++ d :: r) = h ++ d' :: r.
Proof.
  induction h as [|x h IH]; [reflexivity|].
  cbn. f_equal. exact IH.
Qed.

Lemma heap_lookup_lt (h : list dict) (o : loc) (d : dict) :
  h !! o = Some d -> (o < length h)%nat.
Proof.
  revert o; induction h as [|x h IH]; intros [|o] H; try discriminate.
  - cbn. lia.
  - cbn. apply IH in H. lia.
Qed.

(** ** Running the helpers *)

Section Runs.

Context {St : Type}.
Variable self : Scorable St.
Variable host : Host.

(** [_publish_scoring_event] allocates two dictionaries (the copy and the
    base context), fills the copy, and publishes it. *)
Lemma run_publish_scoring_event (name : string) (data : loc) (d : dict)
    (w : world St) :
  heap w !! data = Some d ->
  _publish_scoring_event self name data w =
    (Return tt,
     World (block w)
           (heap w ++ [base_info self ∪ d; base_info self])
           (trace w ++ [Publish name (length (heap w)) (base_info self ∪ d)])).
Proof.
  destruct w as [b h t]; cbn [heap block trace]. intros Hd.
  unfold _publish_scoring_event, _base_event_info, text_type, bind,
    new_dict, dict_update, runtime_publish, log, set_heap, set_trace.
  cbn [heap block trace].
  rewrite heap_lookup_new, (heap_lookup_old h [∅] data d Hd).
  cbn [heap block trace].
  rewrite (right_id_L ∅ (∪) d), heap_insert_new, <- app_assoc.
  cbn [app length]. rewrite heap_lookup_new.
  replace (length (h ++ [d])) with (S (length h))
    by (rewrite length_app; cbn; lia).
  rewrite heap_lookup_next. cbn [heap block trace].
  rewrite heap_insert_new, heap_lookup_new. reflexivity.
Qed.

Lemma base_info_union (d : dict) :
  base_info self ∪ d = <["usage_key" := VStr (location self)]> d.
Proof. unfold base_info. symmetry. apply insert_union_singleton_l. Qed.

(** [_publish_grade] reads the score back from the block and publishes
    it. *)
Lemma run_publish_grade (only_if_higher : option bool) (s : Score)
    (w : world St) :
  get_score self (block w) = Return (PScore s) ->
  _publish_grade self only_if_higher w =
    (Return tt,
     World (block w)
           (heap w ++ [grade_record s only_if_higher])
           (trace w ++ [Get_score;
                        Publish "grade" (length (heap w))
                                (grade_record s only_if_higher)])).
Proof.
  destruct w as [b h t]; cbn [heap block trace]. intros Hg.
  unfold _publish_grade, call_get_score, bind, log, set_trace.
  cbn [heap block trace]. rewrite Hg.
  unfold attr_earned, attr_total, ret, new_dict, set_heap.
  cbn [heap block trace].
  destruct only_if_higher as [flag|];
    unfold dict_setitem, runtime_publish, ret, log, set_heap, set_trace;
    cbn [heap block trace];
    rewrite ?heap_lookup_new; cbn [heap block trace];
    rewrite ?heap_insert_new, ?heap_lookup_new, <- app_assoc;
    reflexivity.
Qed.

End Runs.

Ltac run_event d :=
  rewrite (run_publish_scoring_event _ _ _ d) by apply heap_lookup_new;
  cbn [heap block trace negb is_None length];
  rewrite ?length_app, ?base_info_union, <- ?app_assoc;
  cbn [app length];
  rewrite ?Nat.add_1_r.

(** ** The five ways through [rescore] *)

Section Paths.

Context {St : Type}.
Variable self : Scorable St.
Variable host : Host.

Lemma path_unsupported (only_if_higher : bool) (w : world St) :
  allows_rescore self (block w) = false ->
  rescore self host only_if_higher w =
    (Raise (TypeError (ugettext host "Problem does not support rescoring")),
     after_audit self w (block w) [Service "i18n"; Allows_rescore]
                 "rescore_failure" (failure_data "unsupported")).
Proof.
  destruct w as [b h t]; cbn [heap block trace]; intros Ha.
  run_calls. rewrite Ha; simp_world.
  run_event (failure_data "unsupported"). reflexivity.
Qed.

Lemma path_unanswered (only_if_higher : bool) (w : world St) :
  allows_rescore self (block w) = true ->
  get_score self (block w) = Return PNone ->
  rescore self host only_if_higher w =
    (Raise (ValueError
              (ugettext host
                 "Problem must be answered before it can be rescored.")),
     after_audit self w (block w) [Service "i18n"; Allows_rescore; Get_score]
                 "rescore_failure" (failure_data "unanswered")).
Proof.
  destruct w as [b h t]; cbn [heap block trace]; intros Ha Hg.
  run_calls. rewrite Ha; simp_world. rewrite Hg; simp_world.
  run_event (failure_data "unanswered"). reflexivity.
Qed.

Lemma path_calculation_error (only_if_higher : bool) (w : world St)
    (original : Score) (e : exn) :
  allows_rescore self (block w) = true ->
  get_score self (block w) = Return (PScore original) ->
  calculate_score self (block w) = Raise e ->
  is_Exception e = true ->
  rescore self host only_if_higher w =
    (Return false,
     after_audit self w (block w)
                 [Service "i18n"; Allows_rescore; Get_score; Calculate_score]
                 "rescore_failure" (failure_data "calculation error")).
Proof.
  destruct w as [b h t]; cbn [heap block trace]; intros Ha Hg Hc He.
  run_calls. rewrite Ha; simp_world. rewrite Hg; simp_world.
  rewrite Hc, He; simp_world.
  run_event (failure_data "calculation error"). reflexivity.
Qed.

Lemma path_interrupted (only_if_higher : bool) (w : world St)
    (original : Score) (e : exn) :
  allows_rescore self (block w) = true ->
  get_score self (block w) = Return (PScore original) ->
  calculate_score self (block w) = Raise e ->
  is_Exception e = false ->
  rescore self host only_if_higher w =
    (Raise e,
     World (block w) (heap w)
           (trace w ++
              [Service "i18n"; Allows_rescore; Get_score; Calculate_score])).
Proof.
  destruct w as [b h t]; cbn [heap block trace]; intros Ha Hg Hc He.
  run_calls. rewrite Ha; simp_world. rewrite Hg; simp_world.
  rewrite Hc, He; simp_world. rewrite <- !app_assoc. reflexivity.
Qed.

Lemma path_not_changed (w : world St) (original new : Score) :
  allows_rescore self (block w) = true ->
  get_score self (block w) = Return (PScore original) ->
  calculate_score self (block w) = Return (PScore new) ->
  score_gt new original = false ->
  rescore self host true w =
    (Return false,
     after_audit self w (block w)
                 [Service "i18n"; Allows_rescore; Get_score; Calculate_score]
                 "rescore_result"
                 (result_data "score not changed"
                              (Score_asdict original) (Score_asdict new))).
Proof.
  destruct w as [b h t]; cbn [heap block trace]; intros Ha Hg Hc Hlt.
  run_calls. rewrite Ha; simp_world. rewrite Hg; simp_world.
  rewrite Hc; simp_world. rewrite Hlt; simp_world.
  run_event (result_data "score not changed"
                         (Score_asdict original) (Score_asdict new)).
  reflexivity.
Qed.

(** The persisting path.  [stored] is what the block hands back when
    [_publish_grade] reads the score again. *)
Lemma path_updated (only_if_higher : bool) (w : world St)
    (original new stored : Score) (b' : St) :
  allows_rescore self (block w) = true ->
  get_score self (block w) = Return (PScore original) ->
  calculate_score self (block w) = Return (PScore new) ->
  negb only_if_higher || score_gt new original = true ->
  set_score self (PScore new) (block w) = Return b' ->
  get_score self b' = Return (PScore stored) ->
  rescore self host only_if_higher w =
    (Return true,
     let d := result_data "score updated"
                          (Score_asdict original) (Score_asdict new) in
     World b'
           (heap w ++ [grade_record stored (Some only_if_higher);
                       d; <["usage_key" := VStr (location self)]> d;
                       base_info self])
           (trace w ++
              [Service "i18n"; Allows_rescore; Get_score; Calculate_score;
               Set_score (PScore new); Get_score;
               Publish "grade" (length (heap w))
                       (grade_record stored (Some only_if_higher));
               Publish "rescore_result" (S (S (length (heap w))))
                       (<["usage_key" := VStr (location self)]> d)])).
Proof.
  destruct w as [b h t]; cbn [heap block trace]; intros Ha Hg Hc Hhi Hs Hg'.
  destruct only_if_higher; cbn [negb orb] in Hhi;
    run_calls; rewrite Ha; simp_world; rewrite Hg; simp_world;
    rewrite Hc; simp_world; rewrite ?Hhi; simp_world;
    rewrite Hs; simp_world;
    rewrite (run_publish_grade self _ stored) by exact Hg'; simp_world;
    run_event (result_data "score updated"
                           (Score_asdict original) (Score_asdict new));
    reflexivity.
Qed.


Lemma steps_run {A : Type} (m : M St A) (w : world St) (o : outcome A)
    (b : St) (h : list dict) (added : list action) :
  m w = (o, World b h (trace w ++ added)) -> steps m w = added.
Proof.
  intros E. unfold steps. rewrite E. cbn [snd trace].
  apply drop_app_length.
Qed.

(** When [calculate_score] hands back [None], every way through [rescore]
    ends in an exception, and no audit event is published on any of
    them. *)
Lemma path_calculated_None (only_if_higher : bool) (w : world St)
    (original : Score) :
  allows_rescore self (block w) = true ->
  get_score self (block w) = Return (PScore original) ->
  calculate_score self (block w) = Return PNone ->
  (exists e, fst (rescore self host only_if_higher w) = Raise e) /\
  audit_events (steps (rescore self host only_if_higher) w) = [].
Proof.
  destruct w as [b h t]; cbn [heap block trace]; intros Ha Hg Hc.
  unfold steps.
  run_calls. rewrite Ha; simp_world. rewrite Hg; simp_world.
  rewrite Hc; simp_world.
  destruct only_if_higher; simp_world.
  - destruct (python host); simp_world.
    + unfold no_attribute, raise. simp_world. rewrite <- !app_assoc.
      rewrite drop_app_length. split; [eexists|]; reflexivity.
    + rewrite <- !app_assoc.
      rewrite drop_app_length. split; [eexists|]; reflexivity.
  - destruct (set_score self PNone b) as [b'|e] eqn:Hs; simp_world.
    2:{ rewrite <- !app_assoc, drop_app_length.
        split; [eexists|]; reflexivity. }
    run_grade.
    destruct (get_score self b') as [[|stored]|e] eqn:Hg'; simp_world.
    + rewrite <- !app_assoc, drop_app_length.
      split; [eexists|]; reflexivity.
    + rewrite !heap_lookup_new; simp_world.
      rewrite heap_insert_new, heap_lookup_new; simp_world.
      unfold no_attribute, raise. simp_world.
      rewrite <- !app_assoc, drop_app_length.
      split; [eexists|]; reflexivity.
    + rewrite <- !app_assoc, drop_app_length.
      split; [eexists|]; reflexivity.
Qed.

(** Once [calculate_score] has returned, whatever it returned and
    whatever the block does afterwards, the only audit event [rescore] can
    publish is a [rescore_result]: the [except] branch is out of reach. *)
Lemma path_calculated_no_failure (only_if_higher : bool) (w : world St)
    (original : Score) (v : pyval) :
  allows_rescore self (block w) = true ->
  get_score self (block w) = Return (PScore original) ->
  calculate_score self (block w) = Return v ->
  forall (name : string) (payload : dict),
    In (name, payload)
       (audit_events (steps (rescore self host only_if_higher) w)) ->
    name = "rescore_result".
Proof.
  intros Ha Hg Hc name payload.
  destruct v as [|new].
  { destruct (path_calculated_None only_if_higher w original Ha Hg Hc)
      as [_ ->]. intros []. }
  destruct (negb only_if_higher || score_gt new original) eqn:Hhi.
  2:{ destruct only_if_higher; [|discriminate]. cbn [negb orb] in Hhi.
      rewrite (steps_run _ _ _ _ _ _
                 (path_not_changed w original new Ha Hg Hc Hhi)).
      cbn. intros [H|[]]. congruence. }
  destruct (set_score self (PScore new) (block w)) as [b'|e] eqn:Hs.
  2:{ assert (E : audit_events (steps (rescore self host only_if_higher) w)
                  = []); [|rewrite E; intros []].
      destruct w as [b h t]; cbn [heap block trace] in *. unfold steps.
      destruct only_if_higher; cbn [negb orb] in Hhi;
        run_calls; rewrite Ha; simp_world; rewrite Hg; simp_world;
        rewrite Hc; simp_world; rewrite ?Hhi; simp_world;
        rewrite Hs; simp_world;
        rewrite <- !app_assoc, drop_app_length; reflexivity. }
  destruct (get_score self b') as [[|stored]|e] eqn:Hg'.
  2:{ rewrite (steps_run _ _ _ _ _ _
                 (path_updated only_if_higher w original new stored b'
                    Ha Hg Hc Hhi Hs Hg')).
      cbn. intros [H|[]]. congruence. }
  all: assert (E : audit_events (steps (rescore self host only_if_higher) w)
                   = []); [|rewrite E; intros []].
  all: destruct w as [b h t]; cbn [heap block trace] in *; unfold steps.
  all: destruct only_if_higher; cbn [negb orb] in Hhi;
        run_calls; rewrite Ha; simp_world; rewrite Hg; simp_world;
        rewrite Hc; simp_world; rewrite ?Hhi; simp_world;
        rewrite Hs; simp_world; run_grade; rewrite Hg'; simp_world;
        rewrite <- !app_assoc, drop_app_length; reflexivity.
Qed.

End Paths.

(** ** The stub block of the test suite implements the capabilities *)

Lemma stub_persists : persists_scores StubScorableBlock.
Proof. intros s st. eexists. split; reflexivity. Qed.


Example higher_replaces_low : score_gt calculated low = true.
Proof. reflexivity. Qed.

Example lower_does_not_replace_full : score_gt calculated full = false.
Proof. reflexivity. Qed.

(** Fewer points out of a larger total is not higher; the same points out
    of a larger total is. *)
Example larger_total_alone_is_higher :
  score_gt (mkScore 1 4) (mkScore 1 2) = true /\
  score_gt (mkScore 1 4) (mkScore 2 2) = false.
Proof. split; reflexivity. Qed.

(** ** test_scorable.py, replayed *)

Example test_rescore :
  get_score StubScorableBlock
    (block (snd (rescore StubScorableBlock cpython3 false w_low)))
  = Return (PScore calculated).
Proof. reflexivity. Qed.

Example test_not_yet_scored :
  fst (rescore StubScorableBlock cpython3 false w_unanswered)
  = Raise (ValueError "Problem must be answered before it can be rescored.").
Proof. reflexivity. Qed.

Example test_disallow_rescore :
  fst (rescore StubScorableBlock cpython3 false w_locked)
  = Raise (TypeError "Problem does not support rescoring").
Proof. reflexivity. Qed.

Example test_rescore_if_higher_with_higher :
  get_score StubScorableBlock
    (block (snd (rescore StubScorableBlock cpython3 true w_low)))
  = Return (PScore calculated).
Proof. reflexivity. Qed.

Example test_rescore_if_higher_with_lower :
  get_score StubScorableBlock
    (block (snd (rescore StubScorableBlock cpython3 true w_full)))
  = Return (PScore full).
Proof. reflexivity. Qed.

(** What the runtime of the last test sees, in order. *)
Example test_rescore_if_higher_with_lower_trace :
  published_names (steps (rescore StubScorableBlock cpython3 true) w_full)
  = ["rescore_result"].
Proof. vm_compute. reflexivity. Qed.

Example test_rescore_trace :
  published_names (steps (rescore StubScorableBlock cpython3 false) w_low)
  = ["grade"; "rescore_result"].
Proof. vm_compute. reflexivity. Qed.

(** The mixin with nothing overridden cannot be rescored: [get_score]
    raises before anything is published. *)
Example test_abstract_mixin :
  rescore (ScorableXBlockMixin unit "Here") cpython3 false (fresh_world tt)
  = (Raise NotImplementedError,
     World tt [] [Service "i18n"; Allows_rescore; Get_score]).
Proof. reflexivity. Qed.

(** A block that keeps the mixin's [calculate_score] hands [None] to
    [set_score]. *)
Example test_uncalculated :
  fst (rescore UncalculatedBlock cpython3 false w_low)
  = Raise (AttributeError "'NoneType' object has no attribute 'earned'") /\
  set_score_calls (steps (rescore UncalculatedBlock cpython3 false) w_low)
  = [PNone].
Proof. split; vm_compute; reflexivity. Qed.

(** With [only_if_higher=True] the [None] meets the comparison first. *)
Example test_uncalculated_only_if_higher :
  fst (rescore UncalculatedBlock cpython2 true w_low)
  = Raise (AttributeError "'NoneType' object has no attribute '_asdict'") /\
  fst (rescore UncalculatedBlock cpython3 true w_low)
  = Raise (TypeError
             "'>' not supported between instances of 'NoneType' and 'Score'").
Proof. split; vm_compute; reflexivity. Qed.

(** * The rescoring protocol *)

Section Protocol.

Context {St : Type}.
Variable self : Scorable St.
Variable host : Host.

(** C3. When [calculate_score] raises an error on a block that allows
    rescoring and has a persisted score, [rescore] returns [False] (the
    error does not reach the caller), [set_score] is not called, the block
    and so its persisted score are unchanged, and the one audit event
    published is the [rescore_failure] tagged [calculation error]. *)
Theorem rescore_swallows_calculation_error (only_if_higher : bool)
    (w : world St) (original : Score) (e : exn) :
  allows_rescore self (block w) = true ->
  get_score self (block w) = Return (PScore original) ->
  calculate_score self (block w) = Raise e ->
  is_Exception e = true ->
  let run := rescore self host only_if_higher in
  fst (run w) = Return false /\
  set_score_calls (steps run w) = [] /\
  block (snd (run w)) = block w /\
  get_score self (block (snd (run w))) = Return (PScore original) /\
  audit_events (steps run w) =
    [("rescore_failure", failure_audit self "calculation error")].
Proof.
  intros Ha Hg Hc He run.
  pose proof (path_calculation_error self host only_if_higher w original e
                Ha Hg Hc He) as E.
  unfold run. rewrite (steps_run _ _ _ _ _ _ E), E.
  cbn [fst snd block after_audit]. auto.
Qed.

(** C4. On a block whose [allows_rescore()] is false, [rescore] asks
    nothing else of the block: it publishes the [rescore_failure] audit
    event tagged [unsupported] and raises [TypeError] (the NotSupported
    signal); [calculate_score] and [set_score] are not called. *)
Theorem rescore_not_supported (only_if_higher : bool) (w : world St) :
  allows_rescore self (block w) = false ->
  let run := rescore self host only_if_higher in
  fst (run w) =
    Raise (TypeError (ugettext host "Problem does not support rescoring")) /\
  (exists logged,
     steps run w =
       [Service "i18n"; Allows_rescore;
        Publish "rescore_failure" logged (failure_audit self "unsupported")]) /\
  audit_events (steps run w) =
    [("rescore_failure", failure_audit self "unsupported")] /\
  calculate_score_calls (steps run w) = 0%nat /\
  set_score_calls (steps run w) = [].
Proof.
  intros Ha run.
  pose proof (path_unsupported self host only_if_higher w Ha) as E.
  unfold run. rewrite (steps_run _ _ _ _ _ _ E), E.
  cbn [fst snd]. repeat split; eauto.
Qed.

(** C5. On a block that allows rescoring but whose [get_score()] returns
    [None], [rescore] publishes the [rescore_failure] audit event tagged
    [unanswered] and raises [ValueError] (the InvalidState signal);
    [calculate_score] and [set_score] are not called. *)
Theorem rescore_unanswered_invalid_state (only_if_higher : bool)
    (w : world St) :
  allows_rescore self (block w) = true ->
  get_score self (block w) = Return PNone ->
  let run := rescore self host only_if_higher in
  fst (run w) =
    Raise (ValueError
             (ugettext host
                "Problem must be answered before it can be rescored.")) /\
  (exists logged,
     steps run w =
       [Service "i18n"; Allows_rescore; Get_score;
        Publish "rescore_failure" logged (failure_audit self "unanswered")]) /\
  audit_events (steps run w) =
    [("rescore_failure", failure_audit self "unanswered")] /\
  calculate_score_calls (steps run w) = 0%nat /\
  set_score_calls (steps run w) = [].
Proof.
  intros Ha Hg run.
  pose proof (path_unanswered self host only_if_higher w Ha Hg) as E.
  unfold run. rewrite (steps_run _ _ _ _ _ _ E), E.
  cbn [fst snd]. repeat split; eauto.
Qed.


(** C9. [_publish_scoring_event] does not touch the dictionary it is
    given: after the call [data] holds what it held before, as does every
    other object that existed; what the runtime receives is a dictionary
    created during the call, a different object from [data]. *)
Theorem publish_scoring_event_copies (name : string) (data : loc) (d : dict)
    (w : world St) :
  heap w !! data = Some d ->
  let run := _publish_scoring_event self name data in
  heap (snd (run w)) !! data = Some d /\
  (forall (o : loc) (d0 : dict),
     heap w !! o = Some d0 -> heap (snd (run w)) !! o = Some d0) /\
  block (snd (run w)) = block w /\
  exists (logged : loc) (payload : dict),
    steps run w = [Publish name logged payload] /\
    logged <> data /\
    heap w !! logged = None.
Proof.
  intros Hd run.
  pose proof (run_publish_scoring_event self name data d w Hd) as E.
  unfold run. rewrite (steps_run _ _ _ _ _ [_] E), E. cbn [snd heap block].
  split; [apply heap_lookup_old; exact Hd|].
  split; [intros o d0 Ho; apply heap_lookup_old; exact Ho|].
  split; [reflexivity|].
  exists (length (heap w)), (base_info self ∪ d).
  split; [reflexivity|].
  split.
  - apply heap_lookup_lt in Hd. lia.
  - apply lookup_ge_None. lia.
Qed.

(** C2, as the code has it.  The base context is written over the copy of
    the payload: the published event carries the block's own [usage_key]
    whatever the payload said under that key, and every other key of the
    payload as the caller gave it.  The payloads [rescore] builds have no
    [usage_key], so all of their fields are published as given. *)
Theorem base_context_overrides_payload (name : string) (data : loc)
    (d : dict) (w : world St) :
  heap w !! data = Some d ->
  (exists (logged : loc) (payload : dict),
     steps (_publish_scoring_event self name data) w =
       [Publish name logged payload] /\
     payload !! "usage_key" = Some (VStr (location self)) /\
     (forall k : string, k <> "usage_key" -> payload !! k = d !! k)) /\
  (forall (tag k : string) (v : value),
     failure_data tag !! k = Some v ->
     failure_audit self tag !! k = Some v) /\
  (forall (tag : string) (o n : Score) (k : string) (v : value),
     result_data tag (Score_asdict o) (Score_asdict n) !! k = Some v ->
     result_audit self tag o n !! k = Some v).
Proof.
  intros Hd.
  pose proof (run_publish_scoring_event self name data d w Hd) as E.
  rewrite (steps_run _ _ _ _ _ [_] E).
  split; [|split].
  - exists (length (heap w)), (base_info self ∪ d).
    split; [reflexivity|]. rewrite base_info_union.
    split; [apply lookup_insert_eq|].
    intros k Hk. apply lookup_insert_ne. congruence.
  - intros tag k v. unfold failure_audit, failure_data.
    intros H. apply lookup_singleton_Some in H as [<- <-].
    by simplify_map_eq.
  - intros tag o n k v. unfold result_audit, result_data, Score_asdict.
    intros H.
    destruct (decide (k = "usage_key")) as [->|Hk];
      [by simplify_map_eq | by rewrite lookup_insert_ne].
Qed.

End Protocol.

Section Defaults.

Context {St : Type}.
Variable self : Scorable St.
Variable host : Host.

(** C10. The mixin's own [get_score] and [set_score] raise
    [NotImplementedError]; its [calculate_score] returns [None] and
    raises nothing.  The [except] branch of [rescore] is reached only by an
    exception: once [calculate_score] has returned, no [rescore_failure]
    event is published.  So on a block that keeps the mixin's
    [calculate_score], [rescore] publishes no audit event at all and does
    not return [False] either: the [None] surfaces as an exception. *)
Theorem default_calculate_score_is_not_an_error (only_if_higher : bool)
    (w : world St) (original : Score) :
  allows_rescore self (block w) = true ->
  get_score self (block w) = Return (PScore original) ->
  let run := rescore self host only_if_higher in
  (forall st : St, default_get_score st = Raise NotImplementedError) /\
  (forall (v : pyval) (st : St),
     default_set_score v st = Raise NotImplementedError) /\
  (forall st : St, default_calculate_score st = Return PNone) /\
  (forall v : pyval,
     calculate_score self (block w) = Return v ->
     forall (name : string) (payload : dict),
       In (name, payload) (audit_events (steps run w)) ->
       name = "rescore_result") /\
  (calculate_score self = default_calculate_score ->
   audit_events (steps run w) = [] /\
   exists e, fst (run w) = Raise e).
Proof.
  intros Ha Hg run.
  split; [reflexivity|]. split; [reflexivity|]. split; [reflexivity|].
  split.
  - intros v Hc. exact (path_calculated_no_failure self host
                          only_if_higher w original v Ha Hg Hc).
  - intros Hdef.
    assert (Hc : calculate_score self (block w) = Return PNone)
      by (rewrite Hdef; reflexivity).
    destruct (path_calculated_None self host only_if_higher w original
                Ha Hg Hc) as [He Hev].
    split; [exact Hev | exact He].
Qed.

End Defaults.

(** ** The claim about precedence, on the code

    C2 as it is worded does not hold: a payload that has a [usage_key] of
    its own is published with the block's [usage_key] instead. *)
Lemma caller_usage_key_is_overwritten :
  let d : dict := <["usage_key" := VStr "elsewhere"]>
                    (failure_data "unsupported") in
  let w := World (Stub (PScore full) true) [d] [] in
  let published := <["usage_key" := VStr "Here"]>
                     (failure_data "unsupported") in
  (heap w !! 0%nat = Some d /\
   d !! "usage_key" = Some (VStr "elsewhere") /\
   steps (_publish_scoring_event StubScorableBlock "rescore_failure" 0) w =
     [Publish "rescore_failure" 1 published] /\
   published !! "usage_key" = Some (VStr "Here")) /\
  ~ caller_fields_take_precedence StubScorableBlock.
Proof.
  intros d w published.
  assert (Hsteps :
            steps (_publish_scoring_event StubScorableBlock
                     "rescore_failure" 0) w =
              [Publish "rescore_failure" 1 published]).
  { rewrite (steps_run _ _ _ _ _ [_]
               (run_publish_scoring_event StubScorableBlock
                  "rescore_failure" 0 d w eq_refl)).
    cbn [heap w length]. rewrite base_info_union.
    unfold published, d. cbn [location StubScorableBlock].
    by rewrite insert_insert_eq. }
  split.
  - split; [reflexivity|]. split; [apply lookup_insert_eq|].
    split; [exact Hsteps | apply lookup_insert_eq].
  - intros Hclaim.
    specialize (Hclaim "rescore_failure" 0%nat 1%nat d published w
                       "usage_key" (VStr "elsewhere") eq_refl eq_refl).
    rewrite Hsteps in Hclaim.
    specialize (Hclaim (or_introl eq_refl) (lookup_insert_eq _ _ _)).
    unfold published in Hclaim. rewrite lookup_insert_eq in Hclaim.
    discriminate Hclaim.
Qed.

(** * The protocol on the blocks of the test suite *)

Lemma rescore_swallows_calculation_error_witness :
  calculate_score FailingBlock (block w_full)
    = Raise (ArithmeticError "float division by zero") /\
  fst (rescore FailingBlock cpython3 false w_full) = Return false /\
  set_score_calls (steps (rescore FailingBlock cpython3 false) w_full) = [] /\
  block (snd (rescore FailingBlock cpython3 false w_full)) = block w_full /\
  get_score FailingBlock
    (block (snd (rescore FailingBlock cpython3 false w_full)))
    = Return (PScore full) /\
  audit_events (steps (rescore FailingBlock cpython3 false) w_full) =
    [("rescore_failure", failure_audit FailingBlock "calculation error")].
Proof.
  split; [reflexivity|].
  exact (rescore_swallows_calculation_error FailingBlock cpython3 false
           w_full full (ArithmeticError "float division by zero")
           eq_refl eq_refl eq_refl eq_refl).
Defined.

Lemma rescore_not_supported_witness :
  allows_rescore StubScorableBlock (block w_locked) = false /\
  fst (rescore StubScorableBlock cpython3 false w_locked) =
    Raise (TypeError "Problem does not support rescoring") /\
  calculate_score_calls
    (steps (rescore StubScorableBlock cpython3 false) w_locked) = 0%nat /\
  set_score_calls
    (steps (rescore StubScorableBlock cpython3 false) w_locked) = [].
Proof.
  split; [reflexivity|].
  destruct (rescore_not_supported StubScorableBlock cpython3 false w_locked
              eq_refl) as (Hr & _ & _ & Hc & Hs).
  split; [exact Hr|]. split; [exact Hc | exact Hs].
Defined.

Lemma rescore_unanswered_invalid_state_witness :
  get_score StubScorableBlock (block w_unanswered) = Return PNone /\
  fst (rescore StubScorableBlock cpython3 false w_unanswered) =
    Raise (ValueError "Problem must be answered before it can be rescored.") /\
  calculate_score_calls
    (steps (rescore StubScorableBlock cpython3 false) w_unanswered) = 0%nat /\
  set_score_calls
    (steps (rescore StubScorableBlock cpython3 false) w_unanswered) = [].
Proof.
  split; [reflexivity|].
  destruct (rescore_unanswered_invalid_state StubScorableBlock cpython3 false
              w_unanswered eq_refl eq_refl) as (Hr & _ & _ & Hc & Hs).
  split; [exact Hr|]. split; [exact Hc | exact Hs].
Defined.


Lemma publish_scoring_event_copies_witness :
  let d : dict := failure_data "unsupported" in
  let w := World (Stub (PScore full) true) [d] [] in
  heap w !! 0%nat = Some d /\
  heap (snd (_publish_scoring_event StubScorableBlock "rescore_failure" 0 w))
    !! 0%nat = Some d.
Proof.
  intros d w. split; [reflexivity|].
  exact (proj1 (publish_scoring_event_copies StubScorableBlock
                  "rescore_failure" 0 d w eq_refl)).
Defined.

Lemma base_context_overrides_payload_witness :
  let d : dict := <["usage_key" := VStr "elsewhere"]>
                    (failure_data "unsupported") in
  let w := World (Stub (PScore full) true) [d] [] in
  heap w !! 0%nat = Some d /\
  exists (logged : loc) (payload : dict),
    steps (_publish_scoring_event StubScorableBlock "rescore_failure" 0) w =
      [Publish "rescore_failure" logged payload] /\
    payload !! "usage_key" = Some (VStr "Here") /\
    (forall k : string, k <> "usage_key" -> payload !! k = d !! k).
Proof.
  intros d w. split; [reflexivity|].
  exact (proj1 (base_context_overrides_payload StubScorableBlock
                  "rescore_failure" 0 d w eq_refl)).
Defined.

Lemma default_calculate_score_is_not_an_error_witness :
  calculate_score UncalculatedBlock = default_calculate_score /\
  audit_events (steps (rescore UncalculatedBlock cpython3 false) w_low) = [] /\
  exists e, fst (rescore UncalculatedBlock cpython3 false w_low) = Raise e.
Proof.
  split; [reflexivity|].
  exact (proj2 (proj2 (proj2 (proj2
           (default_calculate_score_is_not_an_error UncalculatedBlock
              cpython3 false w_low low eq_refl eq_refl)))) eq_refl).
Defined.

(** * Any block whatsoever

    What follows asks nothing of the block: its methods may raise, return
    [None] or forget what they were given. *)

Lemma run_publish_literal {St} (self : Scorable St) (name : string) (b : St)
    (h : list dict) (t : list action) (d : dict) :
  _publish_scoring_event self name (length h) (World b (h ++ [d]) t) =
    (Return tt,
     World b
           (h ++ [d; <["usage_key" := VStr (location self)]> d; base_info self])
           (t ++ [Publish name (S (length h))
                          (<["usage_key" := VStr (location self)]> d)])).
Proof.
  rewrite (run_publish_scoring_event self name (length h) d)
    by apply heap_lookup_new.
  cbn [heap block trace]. rewrite base_info_union, length_app, <- app_assoc.
  cbn [app length]. rewrite Nat.add_1_r. reflexivity.
Qed.

(** Case analysis on whatever the run is waiting for next. *)
Ltac case_scrutinee :=
  match goal with
  | |- context [match ?x with _ => _ end] =>
      lazymatch x with
      | context [match _ with _ => _ end] => fail
      | negb ?y => destruct y eqn:?
      | is_None ?y => destruct y eqn:?
      | _ => destruct x eqn:?
      end
  end.

(** Every way through [rescore], one goal each, with the steps spelled
    out. *)
Ltac run_any :=
  run_calls; run_grade; unfold no_attribute, raise; simp_world;
  repeat (first
    [ rewrite run_publish_literal
    | rewrite heap_lookup_new
    | rewrite heap_insert_new
    | case_scrutinee ];
    simp_world; subst);
  rewrite <- ?app_assoc; cbn [app]; rewrite ?drop_app_length.

Section AnyBlock.

Context {St : Type}.
Variable self : Scorable St.
Variable host : Host.

(** X1. When [rescore] returns [False], whatever the block, [set_score]
    was not called, the block is as it was, no grade record was published
    and exactly one audit event was. *)
Theorem rescore_False_means_untouched (only_if_higher : bool)
    (w : world St) :
  let run := rescore self host only_if_higher in
  fst (run w) = Return false ->
  block (snd (run w)) = block w /\
  set_score_calls (steps run w) = [] /\
  grade_records (steps run w) = [] /\
  length (audit_events (steps run w)) = 1%nat.
Proof.
  destruct w as [b h t]. unfold steps. simp_world.
  run_any.
  all: try (intros; discriminate).
  all: intros _; repeat split; reflexivity.
Qed.

(** X2. When [rescore] returns [True], whatever the block, a score was
    persisted before, [calculate_score] returned a score, [set_score] was
    called once with it and returned the block that is left, the runtime
    saw a grade record and then a [rescore_result] event, and if
    [only_if_higher] was set the new score is lexicographically greater
    than the original. *)
Theorem rescore_True_means_persisted (only_if_higher : bool)
    (w : world St) :
  let run := rescore self host only_if_higher in
  fst (run w) = Return true ->
  exists (original new : Score) (b' : St),
    get_score self (block w) = Return (PScore original) /\
    calculate_score self (block w) = Return (PScore new) /\
    set_score self (PScore new) (block w) = Return b' /\
    block (snd (run w)) = b' /\
    set_score_calls (steps run w) = [PScore new] /\
    published_names (steps run w) = ["grade"; "rescore_result"] /\
    (only_if_higher = true -> lex_gt new original).
Proof.
  destruct w as [b h t]. unfold steps. simp_world.
  run_any.
  all: try (intros; discriminate).
  all: intros _; do 3 eexists; repeat split; try eassumption; try reflexivity.
  all: try discriminate.
  all: intros _; apply score_gt_lex; assumption.
Qed.

(** X3. Whatever the block, one [rescore] call looks up the i18n service
    and asks [allows_rescore] before anything else, calls
    [calculate_score] at most once and [set_score] at most once, and
    publishes at most one grade record and at most one audit event. *)
Theorem rescore_calls_at_most_once (only_if_higher : bool) (w : world St) :
  let tr := steps (rescore self host only_if_higher) w in
  (exists rest, tr = Service "i18n" :: Allows_rescore :: rest) /\
  (calculate_score_calls tr <= 1)%nat /\
  (length (set_score_calls tr) <= 1)%nat /\
  (length (grade_records tr) <= 1)%nat /\
  (length (audit_events tr) <= 1)%nat.
Proof.
  destruct w as [b h t]. unfold steps. simp_world.
  run_any.
  all: split; [eexists; reflexivity | cbn; lia].
Qed.

(** X4. Whatever the block, every audit event [rescore] publishes carries
    the block's own location under [usage_key], and no grade record has a
    [usage_key]. *)
Theorem published_events_are_stamped (only_if_higher : bool) (w : world St) :
  let tr := steps (rescore self host only_if_higher) w in
  (forall (name : string) (payload : dict),
     In (name, payload) (audit_events tr) ->
     payload !! "usage_key" = Some (VStr (location self))) /\
  (forall grade : dict,
     In grade (grade_records tr) -> grade !! "usage_key" = None).
Proof.
  destruct w as [b h t]. unfold steps. simp_world.
  run_any.
  all: split;
    [ intros name payload; cbn; intros H;
      repeat (destruct H as [H|H]; [injection H as <- <-|]);
      [apply lookup_insert_eq .. | destruct H]
    | intros grade; cbn; intros H;
      repeat (destruct H as [<-|H]; [by simplify_map_eq|]);
      destruct H ].
Qed.

(** X5. Whatever the block, [rescore] leaves every dictionary that existed
    before the call with the contents it had: all it writes to are
    dictionaries it created. *)
Theorem rescore_preserves_existing_objects (only_if_higher : bool)
    (w : world St) (o : loc) (d : dict) :
  heap w !! o = Some d ->
  heap (snd (rescore self host only_if_higher w)) !! o = Some d.
Proof.
  destruct w as [b h t]. simp_world. intros Hd.
  run_any.
  all: first [exact Hd | apply heap_lookup_old; exact Hd].
Qed.

(** X6. Whatever the block, [set_score] is only ever called with the value
    [calculate_score] returned, and the block changes only by that call:
    after [rescore] the block is either as it was or what that
    [set_score] returned. *)
Theorem set_score_receives_calculated_value (only_if_higher : bool)
    (w : world St) :
  let run := rescore self host only_if_higher in
  (forall v : pyval,
     In v (set_score_calls (steps run w)) ->
     calculate_score self (block w) = Return v) /\
  (block (snd (run w)) = block w \/
   exists (v : pyval) (b' : St),
     calculate_score self (block w) = Return v /\
     set_score self v (block w) = Return b' /\
     block (snd (run w)) = b').
Proof.
  destruct w as [b h t]. unfold steps. simp_world.
  run_any.
  all: split;
    [ intros v; cbn; intros H;
      repeat (destruct H as [<-|H]; [first [assumption | reflexivity]|]);
      destruct H
    | first [ left; reflexivity
            | right; do 2 eexists; repeat split;
              first [eassumption | reflexivity] ] ].
Qed.

(** X7. Whatever the block, a [rescore_result] event is published only
    after [get_score] and [calculate_score] both returned scores; it
    carries the score read before the call as [original_score] and the
    calculated one as [new_score], and its [result] is [score updated]
    exactly when [rescore] returns [True], [score not changed] when it
    returns [False]. *)
Theorem result_event_reports_both_scores (only_if_higher : bool)
    (w : world St) (payload : dict) :
  In ("rescore_result", payload)
     (audit_events (steps (rescore self host only_if_higher) w)) ->
  exists original new : Score,
    get_score self (block w) = Return (PScore original) /\
    calculate_score self (block w) = Return (PScore new) /\
    payload !! "original_score" = Some (Score_asdict original) /\
    payload !! "new_score" = Some (Score_asdict new) /\
    (payload !! "result" = Some (VStr "score updated") /\
       fst (rescore self host only_if_higher w) = Return true \/
     payload !! "result" = Some (VStr "score not changed") /\
       fst (rescore self host only_if_higher w) = Return false).
Proof.
  destruct w as [b h t]. unfold steps. simp_world.
  run_any.
  all: cbn; first [intros [H|[]] | intros []]; try discriminate H.
  all: injection H as <-; do 2 eexists;
    split; [reflexivity|]; split; [reflexivity|];
    unfold result_data;
    split; [by simplify_map_eq|]; split; [by simplify_map_eq|].
  all: first [ left; split; [by simplify_map_eq | reflexivity]
             | right; split; [by simplify_map_eq | reflexivity] ].
Qed.

(** X8. Whatever the block, a [rescore_failure] event names its cause:
    it is tagged [unsupported] and [allows_rescore] was false, or
    [unanswered] and [get_score] returned [None], or [calculation error]
    and [calculate_score] raised an error. *)
Theorem failure_event_names_the_cause (only_if_higher : bool)
    (w : world St) (payload : dict) :
  In ("rescore_failure", payload)
     (audit_events (steps (rescore self host only_if_higher) w)) ->
  (payload = failure_audit self "unsupported" /\
   allows_rescore self (block w) = false) \/
  (payload = failure_audit self "unanswered" /\
   get_score self (block w) = Return PNone) \/
  (payload = failure_audit self "calculation error" /\
   exists e, calculate_score self (block w) = Raise e /\
             is_Exception e = true).
Proof.
  destruct w as [b h t]. unfold steps. simp_world.
  run_any.
  all: cbn; first [intros [H|[]] | intros []]; try discriminate H.
  all: injection H as <-.
  all: first [ left; split; first [reflexivity | assumption]
             | right; left; split; first [reflexivity | assumption]
             | right; right; split; [reflexivity|];
               eexists; split; first [reflexivity | assumption] ].
Qed.

End AnyBlock.

(** * The decision to persist, on any block

    [set_score] and the [get_score] of [_publish_grade] are called outside
    the [try]: what [rescore] returns once it has decided to persist
    depends on them. *)


Section Persisting.

Context {St : Type}.
Variable self : Scorable St.
Variable host : Host.



(** C6, as the code has it.  When the decision is to persist, every grade
    record published has [value] and [max_value] equal to the [earned]
    and [total] of the score [get_score] returns after
    [set_score(new_score)], and [only_if_higher] equal to the flag
    [rescore] was called with; there is exactly one such record when
    [set_score] returns and that [get_score] returns a score.  They are
    [new_score]'s own [earned] and [total] when [set_score] persists
    [new_score] as given. *)
Theorem grade_record_of_stored_score (only_if_higher : bool)
    (w : world St) (original new : Score) :
  allows_rescore self (block w) = true ->
  get_score self (block w) = Return (PScore original) ->
  calculate_score self (block w) = Return (PScore new) ->
  only_if_higher = false \/ lex_gt new original ->
  let run := rescore self host only_if_higher in
  (forall grade : dict,
     In grade (grade_records (steps run w)) ->
     exists (b' : St) (stored : Score),
       set_score self (PScore new) (block w) = Return b' /\
       get_score self b' = Return (PScore stored) /\
       grade !! "value" = Some (VNum (earned stored)) /\
       grade !! "max_value" = Some (VNum (total stored)) /\
       grade !! "only_if_higher" = Some (VBool only_if_higher)) /\
  (forall (b' : St) (stored : Score),
     set_score self (PScore new) (block w) = Return b' ->
     get_score self b' = Return (PScore stored) ->
     set_score_calls (steps run w) = [PScore new] /\
     grade_records (steps run w) =
       [grade_record stored (Some only_if_higher)]) /\
  (persists self (block w) new ->
     exists grade : dict,
       grade_records (steps run w) = [grade] /\
       grade !! "value" = Some (VNum (earned new)) /\
       grade !! "max_value" = Some (VNum (total new)) /\
       grade !! "only_if_higher" = Some (VBool only_if_higher)).
Proof.
  intros Ha Hg Hc Hdec run.
  assert (Hhi : negb only_if_higher || score_gt new original = true).
  { destruct Hdec as [-> | Hlex]; [reflexivity|].
    apply score_gt_lex in Hlex. rewrite Hlex. apply orb_true_r. }
  assert (Hstored : forall (b' : St) (stored : Score),
             set_score self (PScore new) (block w) = Return b' ->
             get_score self b' = Return (PScore stored) ->
             set_score_calls (steps run w) = [PScore new] /\
             grade_records (steps run w) =
               [grade_record stored (Some only_if_higher)]).
  { intros b' stored Hs Hg'.
    pose proof (path_updated self host only_if_higher w original new stored
                  b' Ha Hg Hc Hhi Hs Hg') as E.
    unfold run. rewrite (steps_run _ _ _ _ _ _ E). split; reflexivity. }
  split; [|split; [exact Hstored|]].
  - intros grade.
    destruct (set_score self (PScore new) (block w)) as [b'|e] eqn:Hs.
    2:{ revert Ha Hg Hc Hhi Hs. clear. unfold run, steps.
        destruct w as [b h t]. simp_world. intros Ha Hg Hc Hhi Hs.
        destruct only_if_higher; cbn [negb orb] in Hhi;
          run_calls; rewrite Ha; simp_world; rewrite Hg; simp_world;
          rewrite Hc; simp_world; rewrite ?Hhi; simp_world;
          rewrite Hs; simp_world;
          rewrite <- !app_assoc, drop_app_length; intros []. }
    destruct (get_score self b') as [[|stored]|e] eqn:Hg'.
    2:{ destruct (Hstored b' stored eq_refl Hg') as [_ ->].
        intros [<-|[]]. exists b', stored.
        split; [reflexivity|]. split; [exact Hg'|].
        unfold grade_record. repeat split; by simplify_map_eq. }
    all: revert Ha Hg Hc Hhi Hs Hg'; clear; unfold run, steps;
      destruct w as [b h t]; simp_world; intros Ha Hg Hc Hhi Hs Hg';
      destruct only_if_higher; cbn [negb orb] in Hhi;
        run_calls; rewrite Ha; simp_world; rewrite Hg; simp_world;
        rewrite Hc; simp_world; rewrite ?Hhi; simp_world;
        rewrite Hs; simp_world; run_grade; rewrite Hg'; simp_world;
        rewrite <- !app_assoc, drop_app_length; intros [].
  - intros (b' & Hs & Hg').
    destruct (Hstored b' new Hs Hg') as [_ ->].
    eexists. split; [reflexivity|].
    unfold grade_record. repeat split; by simplify_map_eq.
Qed.

End Persisting.



(** C6 as it is worded does not hold: on a block whose [set_score] rescales
    the score, the grade record shows the rescaled score, 0.8 out of 1,
    where the calculated one is 1.6 out of 2. *)
Lemma normalizing_block_grades_stored_score :
  let stored := mkScore (earned calculated / total calculated) 1 in
  (allows_rescore NormalizingBlock (block w_low) = true /\
   get_score NormalizingBlock (block w_low) = Return (PScore low) /\
   calculate_score NormalizingBlock (block w_low) = Return (PScore calculated)
   /\
   grade_records (steps (rescore NormalizingBlock cpython3 false) w_low)
     = [grade_record stored (Some false)] /\
   grade_record stored (Some false) !! "value" = Some (VNum (earned stored))
   /\
   ~ (earned stored == earned calculated)%Q) /\
  ~ grade_record_shows_new_score NormalizingBlock cpython3.
Proof.
  intros stored.
  assert (Hrec : grade_records
                   (steps (rescore NormalizingBlock cpython3 false) w_low)
                 = [grade_record stored (Some false)]) by reflexivity.
  assert (Hval : grade_record stored (Some false) !! "value"
                 = Some (VNum (earned stored))) by reflexivity.
  split.
  - repeat split; try reflexivity. discriminate.
  - intros Hclaim.
    destruct (Hclaim false w_low low calculated
                (grade_record stored (Some false))
                eq_refl eq_refl eq_refl (or_introl eq_refl))
      as [Hv _].
    + rewrite Hrec. left. reflexivity.
    + rewrite Hval in Hv. discriminate Hv.
Qed.

(** ** The order on scores *)

Lemma lex_gt_irrefl (s : Score) : ~ lex_gt s s.
Proof.
  intros [H|[_ H]]; exact (Qlt_irrefl _ H).
Qed.

Lemma lex_gt_trans (a b c : Score) : lex_gt a b -> lex_gt b c -> lex_gt a c.
Proof.
  unfold lex_gt. intros [H1|[E1 H1]] [H2|[E2 H2]].
  - left. exact (Qlt_trans _ _ _ H2 H1).
  - left. rewrite <- E2. exact H1.
  - left. rewrite E1. exact H2.
  - right. split.
    + rewrite E1. exact E2.
    + exact (Qlt_trans _ _ _ H2 H1).
Qed.

Lemma lex_gt_asym (a b : Score) : lex_gt a b -> ~ lex_gt b a.
Proof.
  intros H1 H2. exact (lex_gt_irrefl a (lex_gt_trans a b a H1 H2)).
Qed.

Lemma lex_gt_total (a b : Score) :
  ~ lex_gt a b -> ~ lex_gt b a ->
  (earned a == earned b)%Q /\ (total a == total b)%Q.
Proof.
  unfold lex_gt. intros H1 H2.
  assert (E : (earned a == earned b)%Q).
  { destruct (Q_dec (earned a) (earned b)) as [[H|H]|H]; [| |exact H].
    - exfalso. apply H2. left. exact H.
    - exfalso. apply H1. left. exact H. }
  split; [exact E|].
  destruct (Q_dec (total a) (total b)) as [[H|H]|H]; [| |exact H].
  - exfalso. apply H2. right. split; [symmetry; exact E | exact H].
  - exfalso. apply H1. right. split; [exact E | exact H].
Qed.

(** X9. The comparison [rescore] uses is a strict order on scores: no
    score is greater than itself, two scores are never each greater than
    the other, greater-than is transitive, and two scores neither of which
    is greater have equal [earned] and equal [total]. *)
Theorem score_gt_strict_order :
  (forall s : Score, score_gt s s = false) /\
  (forall a b : Score, score_gt a b = true -> score_gt b a = false) /\
  (forall a b c : Score,
     score_gt a b = true -> score_gt b c = true -> score_gt a c = true) /\
  (forall a b : Score,
     score_gt a b = false -> score_gt b a = false ->
     (earned a == earned b)%Q /\ (total a == total b)%Q).
Proof.
  split; [|split; [|split]].
  - intros s. apply score_gt_false_lex, lex_gt_irrefl.
  - intros a b H. apply score_gt_false_lex, lex_gt_asym, score_gt_lex, H.
  - intros a b c H1 H2. apply score_gt_lex.
    apply (lex_gt_trans a b c); apply score_gt_lex; assumption.
  - intros a b H1 H2.
    apply lex_gt_total; apply score_gt_false_lex; assumption.
Qed.

(** * When the block lets the protocol down *)

Section Failures.

Context {St : Type}.
Variable self : Scorable St.
Variable host : Host.

(** X10. [get_score] is called outside the [try]: when it raises, whatever
    the exception, [rescore] raises the same exception after the service
    lookup, [allows_rescore] and [get_score], with nothing published,
    nothing allocated and the block as it was. *)
Theorem get_score_exception_propagates (only_if_higher : bool)
    (w : world St) (e : exn) :
  allows_rescore self (block w) = true ->
  get_score self (block w) = Raise e ->
  rescore self host only_if_higher w =
    (Raise e,
     World (block w) (heap w)
           (trace w ++ [Service "i18n"; Allows_rescore; Get_score])).
Proof.
  destruct w as [b h t]; simp_world; intros Ha Hg.
  run_calls. rewrite Ha; simp_world. rewrite Hg; simp_world.
  rewrite <- !app_assoc. reflexivity.
Qed.

(** X11. [set_score] is called outside the [try] too: when the decision
    is to persist and [set_score] raises, [rescore] raises the same
    exception right after the call; neither a grade record nor an audit
    event is published and the block is as it was. *)
Theorem set_score_exception_propagates (only_if_higher : bool)
    (w : world St) (original new : Score) (e : exn) :
  allows_rescore self (block w) = true ->
  get_score self (block w) = Return (PScore original) ->
  calculate_score self (block w) = Return (PScore new) ->
  only_if_higher = false \/ lex_gt new original ->
  set_score self (PScore new) (block w) = Raise e ->
  rescore self host only_if_higher w =
    (Raise e,
     World (block w) (heap w)
           (trace w ++ [Service "i18n"; Allows_rescore; Get_score;
                        Calculate_score; Set_score (PScore new)])).
Proof.
  destruct w as [b h t]; simp_world; intros Ha Hg Hc Hdec Hs.
  assert (Hhi : negb only_if_higher || score_gt new original = true).
  { destruct Hdec as [-> | Hlex]; [reflexivity|].
    apply score_gt_lex in Hlex. rewrite Hlex. apply orb_true_r. }
  destruct only_if_higher; cbn [negb orb] in Hhi;
    run_calls; rewrite Ha; simp_world; rewrite Hg; simp_world;
    rewrite Hc; simp_world; rewrite ?Hhi; simp_world;
    rewrite Hs; simp_world; rewrite <- !app_assoc; reflexivity.
Qed.

(** X12. When the decision is to persist and [set_score] returns but
    [get_score] then returns [None], [_publish_grade] fails on
    [score.earned]: [rescore] raises [AttributeError] with the block
    already changed and nothing published. *)
Theorem set_score_that_forgets (only_if_higher : bool)
    (w : world St) (original new : Score) (b' : St) :
  allows_rescore self (block w) = true ->
  get_score self (block w) = Return (PScore original) ->
  calculate_score self (block w) = Return (PScore new) ->
  only_if_higher = false \/ lex_gt new original ->
  set_score self (PScore new) (block w) = Return b' ->
  get_score self b' = Return PNone ->
  rescore self host only_if_higher w =
    (Raise (AttributeError "'NoneType' object has no attribute 'earned'"),
     World b' (heap w)
           (trace w ++ [Service "i18n"; Allows_rescore; Get_score;
                        Calculate_score; Set_score (PScore new);
                        Get_score])).
Proof.
  destruct w as [b h t]; simp_world; intros Ha Hg Hc Hdec Hs Hg'.
  assert (Hhi : negb only_if_higher || score_gt new original = true).
  { destruct Hdec as [-> | Hlex]; [reflexivity|].
    apply score_gt_lex in Hlex. rewrite Hlex. apply orb_true_r. }
  destruct only_if_higher; cbn [negb orb] in Hhi;
    run_calls; rewrite Ha; simp_world; rewrite Hg; simp_world;
    rewrite Hc; simp_world; rewrite ?Hhi; simp_world;
    rewrite Hs; simp_world; run_grade; rewrite Hg'; simp_world;
    rewrite <- !app_assoc; reflexivity.
Qed.

(** X13. An exception of [calculate_score] that does not derive from
    [Exception] is not caught: [rescore] raises it, publishes nothing,
    does not call [set_score] and leaves the block as it was. *)
Theorem interrupt_is_not_swallowed (only_if_higher : bool)
    (w : world St) (original : Score) (e : exn) :
  allows_rescore self (block w) = true ->
  get_score self (block w) = Return (PScore original) ->
  calculate_score self (block w) = Raise e ->
  is_Exception e = false ->
  let run := rescore self host only_if_higher in
  fst (run w) = Raise e /\
  published_names (steps run w) = [] /\
  set_score_calls (steps run w) = [] /\
  block (snd (run w)) = block w.
Proof.
  intros Ha Hg Hc He run.
  pose proof (path_interrupted self host only_if_higher w original e
                Ha Hg Hc He) as E.
  unfold run. rewrite (steps_run _ _ _ _ _ _ E), E.
  cbn [fst snd block]. auto.
Qed.

(** X14. [_publish_grade] on a block with a persisted score publishes one
    new dictionary under the name [grade] holding the score's [earned] as
    [value] and its [total] as [max_value]; [only_if_higher] is present
    exactly when the argument is not [None], with the argument's value;
    there is no other key, and the block is not changed. *)
Theorem publish_grade_optional_flag (only_if_higher : option bool)
    (w : world St) (s : Score) :
  get_score self (block w) = Return (PScore s) ->
  let run := _publish_grade self only_if_higher in
  fst (run w) = Return tt /\
  block (snd (run w)) = block w /\
  exists (obj : loc) (grade : dict),
    steps run w = [Get_score; Publish "grade" obj grade] /\
    heap w !! obj = None /\
    grade !! "value" = Some (VNum (earned s)) /\
    grade !! "max_value" = Some (VNum (total s)) /\
    grade !! "only_if_higher" = VBool <$> only_if_higher /\
    (forall k : string,
       k <> "value" -> k <> "max_value" -> k <> "only_if_higher" ->
       grade !! k = None).
Proof.
  intros Hg run.
  pose proof (run_publish_grade self only_if_higher s w Hg) as E.
  unfold run. rewrite (steps_run _ _ _ _ _ [_; _] E), E. cbn [fst snd block].
  split; [reflexivity|]. split; [reflexivity|].
  exists (length (heap w)), (grade_record s only_if_higher).
  split; [reflexivity|].
  split; [apply lookup_ge_None; lia|].
  unfold grade_record.
  destruct only_if_higher as [flag|]; cbn [fmap option_fmap option_map];
    repeat split; try (by simplify_map_eq);
    intros k H1 H2 H3; by simplify_map_eq.
Qed.

(** X15. [_publish_grade] on a block whose [get_score] returns [None]
    raises [AttributeError] after the [get_score] call: nothing is
    published and no dictionary is created. *)
Theorem publish_grade_without_score (only_if_higher : option bool)
    (w : world St) :
  get_score self (block w) = Return PNone ->
  _publish_grade self only_if_higher w =
    (Raise (AttributeError "'NoneType' object has no attribute 'earned'"),
     World (block w) (heap w) (trace w ++ [Get_score])).
Proof.
  destruct w as [b h t]; simp_world; intros Hg.
  run_grade. rewrite Hg; simp_world. reflexivity.
Qed.

(** X16. [rescore(only_if_higher=True)] never lowers the persisted score:
    on a block that allows rescoring, has a score and calculates one (and
    persists it when asked to), the score persisted afterwards is the
    original or the calculated one, and the original is not greater than
    it. *)
Theorem rescore_only_if_higher_never_lowers (w : world St)
    (original new : Score) :
  persists self (block w) new ->
  allows_rescore self (block w) = true ->
  get_score self (block w) = Return (PScore original) ->
  calculate_score self (block w) = Return (PScore new) ->
  exists final : Score,
    get_score self (block (snd (rescore self host true w)))
      = Return (PScore final) /\
    (final = original \/ final = new) /\
    ~ lex_gt original final.
Proof.
  intros (b' & Hs & Hg') Ha Hg Hc.
  destruct (score_gt new original) eqn:Hgt.
  - rewrite (path_updated self host true w original new new b'
               Ha Hg Hc Hgt Hs Hg').
    exists new. cbn [snd block]. split; [exact Hg'|]. split; [right; reflexivity|].
    apply lex_gt_asym, score_gt_lex, Hgt.
  - rewrite (path_not_changed self host w original new Ha Hg Hc Hgt).
    exists original. cbn [snd block after_audit].
    split; [exact Hg|]. split; [left; reflexivity|]. apply lex_gt_irrefl.
Qed.

(** X17. [rescore(only_if_higher=True)] twice in a row, on a block that
    allows rescoring, has a persisted score, calculates one and persists
    it when asked to ([set_score] returns and [get_score] then returns
    that score): when the block still allows rescoring and calculates the
    same score after the first call's [set_score], the second call returns
    [False], does not call [set_score] and leaves the block as the first
    call left it. *)
Theorem second_rescore_changes_nothing (w : world St)
    (original new : Score) :
  persists self (block w) new ->
  allows_rescore self (block w) = true ->
  get_score self (block w) = Return (PScore original) ->
  calculate_score self (block w) = Return (PScore new) ->
  (forall b' : St,
     set_score self (PScore new) (block w) = Return b' ->
     allows_rescore self b' = true /\
     calculate_score self b' = Return (PScore new)) ->
  let run := rescore self host true in
  let w1 := snd (run w) in
  fst (run w1) = Return false /\
  block (snd (run w1)) = block w1 /\
  set_score_calls (steps run w1) = [].
Proof.
  intros (b' & Hs & Hg') Ha Hg Hc Hstable run w1.
  destruct (Hstable b' Hs) as [Ha' Hc'].
  destruct (score_gt new original) eqn:Hgt.
  - assert (Hb : block w1 = b').
    { unfold w1, run.
      rewrite (path_updated self host true w original new new b'
                 Ha Hg Hc Hgt Hs Hg'). reflexivity. }
    assert (Hnn : score_gt new new = false)
      by apply score_gt_false_lex, lex_gt_irrefl.
    rewrite <- Hb in Ha', Hc', Hg'.
    pose proof (path_not_changed self host w1 new new Ha' Hg' Hc' Hnn) as E.
    unfold run. rewrite (steps_run _ _ _ _ _ _ E), E.
    cbn [fst snd block after_audit]. auto.
  - assert (Hb : block w1 = block w).
    { unfold w1, run.
      rewrite (path_not_changed self host w original new Ha Hg Hc Hgt).
      reflexivity. }
    rewrite <- Hb in Ha, Hg, Hc.
    pose proof (path_not_changed self host w1 original new Ha Hg Hc Hgt) as E.
    unfold run. rewrite (steps_run _ _ _ _ _ _ E), E.
    cbn [fst snd block after_audit]. auto.
Qed.

(** X18. Publishing the same payload twice hands the runtime two
    different dictionaries with the same contents; the second call changes
    neither the first published dictionary nor the payload. *)
Theorem two_events_are_two_objects (name1 name2 : string) (data : loc)
    (d : dict) (w : world St) :
  heap w !! data = Some d ->
  let w1 := snd (_publish_scoring_event self name1 data w) in
  let w2 := snd (_publish_scoring_event self name2 data w1) in
  exists (obj1 obj2 : loc) (payload : dict),
    steps (_publish_scoring_event self name1 data) w
      = [Publish name1 obj1 payload] /\
    steps (_publish_scoring_event self name2 data) w1
      = [Publish name2 obj2 payload] /\
    obj1 <> obj2 /\
    heap w2 !! obj1 = Some payload /\
    heap w2 !! obj2 = Some payload /\
    heap w2 !! data = Some d.
Proof.
  intros Hd w1 w2.
  pose proof (run_publish_scoring_event self name1 data d w Hd) as E1.
  assert (Hd1 : heap w1 !! data = Some d).
  { unfold w1. rewrite E1. cbn [snd heap]. apply heap_lookup_old, Hd. }
  pose proof (run_publish_scoring_event self name2 data d w1 Hd1) as E2.
  exists (length (heap w)), (length (heap w1)), (base_info self ∪ d).
  rewrite (steps_run _ _ _ _ _ [_] E1), (steps_run _ _ _ _ _ [_] E2).
  assert (Hh1 : heap w1 = heap w ++ [base_info self ∪ d; base_info self])
    by (unfold w1; rewrite E1; reflexivity).
  assert (Hh2 : heap w2 = heap w1 ++ [base_info self ∪ d; base_info self])
    by (unfold w2; rewrite E2; reflexivity).
  split; [reflexivity|]. split; [reflexivity|].
  split; [rewrite Hh1, length_app; cbn; lia|].
  split; [rewrite Hh2; apply heap_lookup_old; rewrite Hh1;
          apply heap_lookup_new|].
  split; [rewrite Hh2; apply heap_lookup_new|].
  rewrite Hh2. apply heap_lookup_old, Hd1.
Qed.

(** X19. On the persisting path the grade record is built from the score
    [get_score] returns after [set_score], while the audit event reports
    the calculated score: for a block that stores something else than it
    was given, the grade record shows what it stored. *)
Theorem grade_record_is_read_back (only_if_higher : bool) (w : world St)
    (original new stored : Score) (b' : St) :
  allows_rescore self (block w) = true ->
  get_score self (block w) = Return (PScore original) ->
  calculate_score self (block w) = Return (PScore new) ->
  only_if_higher = false \/ lex_gt new original ->
  set_score self (PScore new) (block w) = Return b' ->
  get_score self b' = Return (PScore stored) ->
  let run := rescore self host only_if_higher in
  fst (run w) = Return true /\
  block (snd (run w)) = b' /\
  grade_records (steps run w) =
    [grade_record stored (Some only_if_higher)] /\
  audit_events (steps run w) =
    [("rescore_result", result_audit self "score updated" original new)].
Proof.
  intros Ha Hg Hc Hdec Hs Hg' run.
  assert (Hhi : negb only_if_higher || score_gt new original = true).
  { destruct Hdec as [-> | Hlex]; [reflexivity|].
    apply score_gt_lex in Hlex. rewrite Hlex. apply orb_true_r. }
  pose proof (path_updated self host only_if_higher w original new stored b'
                Ha Hg Hc Hhi Hs Hg') as E.
  unfold run. rewrite (steps_run _ _ _ _ _ _ E), E.
  cbn [fst snd block]. auto.
Qed.

End Failures.

(** * The further properties on the blocks of the test suite *)

Lemma rescore_False_means_untouched_witness :
  fst (rescore FailingBlock cpython3 true w_full) = Return false /\
  block (snd (rescore FailingBlock cpython3 true w_full)) = block w_full /\
  set_score_calls (steps (rescore FailingBlock cpython3 true) w_full) = [] /\
  grade_records (steps (rescore FailingBlock cpython3 true) w_full) = [] /\
  length (audit_events (steps (rescore FailingBlock cpython3 true) w_full))
    = 1%nat.
Proof.
  split; [reflexivity|].
  exact (rescore_False_means_untouched FailingBlock cpython3 true w_full
           eq_refl).
Defined.

Lemma rescore_True_means_persisted_witness :
  fst (rescore StubScorableBlock cpython3 true w_low) = Return true /\
  exists (original new : Score) (b' : stub_state),
    get_score StubScorableBlock (block w_low) = Return (PScore original) /\
    calculate_score StubScorableBlock (block w_low) = Return (PScore new) /\
    set_score StubScorableBlock (PScore new) (block w_low) = Return b' /\
    block (snd (rescore StubScorableBlock cpython3 true w_low)) = b' /\
    set_score_calls (steps (rescore StubScorableBlock cpython3 true) w_low)
      = [PScore new] /\
    published_names (steps (rescore StubScorableBlock cpython3 true) w_low)
      = ["grade"; "rescore_result"] /\
    (true = true -> lex_gt new original).
Proof.
  split; [reflexivity|].
  exact (rescore_True_means_persisted StubScorableBlock cpython3 true w_low
           eq_refl).
Defined.

Lemma published_events_are_stamped_witness :
  In ("rescore_failure", failure_audit StubScorableBlock "unsupported")
     (audit_events (steps (rescore StubScorableBlock cpython3 false) w_locked))
  /\
  failure_audit StubScorableBlock "unsupported" !! "usage_key"
    = Some (VStr "Here").
Proof.
  assert (H : In ("rescore_failure",
                  failure_audit StubScorableBlock "unsupported")
                (audit_events
                   (steps (rescore StubScorableBlock cpython3 false)
                          w_locked)))
    by (left; reflexivity).
  split; [exact H|].
  exact (proj1 (published_events_are_stamped StubScorableBlock cpython3
                  false w_locked) _ _ H).
Defined.

Lemma rescore_preserves_existing_objects_witness :
  heap w_used !! 0%nat = Some (failure_data "unsupported") /\
  heap (snd (rescore StubScorableBlock cpython3 false w_used)) !! 0%nat
    = Some (failure_data "unsupported").
Proof.
  split; [reflexivity|].
  exact (rescore_preserves_existing_objects StubScorableBlock cpython3 false
           w_used 0 (failure_data "unsupported") eq_refl).
Defined.

Lemma set_score_receives_calculated_value_witness :
  In (PScore calculated)
     (set_score_calls (steps (rescore StubScorableBlock cpython3 false) w_low))
  /\
  calculate_score StubScorableBlock (block w_low) = Return (PScore calculated).
Proof.
  assert (H : In (PScore calculated)
                (set_score_calls
                   (steps (rescore StubScorableBlock cpython3 false) w_low)))
    by (left; reflexivity).
  split; [exact H|].
  exact (proj1 (set_score_receives_calculated_value StubScorableBlock
                  cpython3 false w_low) _ H).
Defined.

Lemma result_event_reports_both_scores_witness :
  let payload := result_audit StubScorableBlock "score not changed"
                              full calculated in
  In ("rescore_result", payload)
     (audit_events (steps (rescore StubScorableBlock cpython3 true) w_full)) /\
  exists original new : Score,
    get_score StubScorableBlock (block w_full) = Return (PScore original) /\
    calculate_score StubScorableBlock (block w_full) = Return (PScore new) /\
    payload !! "original_score" = Some (Score_asdict original) /\
    payload !! "new_score" = Some (Score_asdict new) /\
    (payload !! "result" = Some (VStr "score updated") /\
       fst (rescore StubScorableBlock cpython3 true w_full) = Return true \/
     payload !! "result" = Some (VStr "score not changed") /\
       fst (rescore StubScorableBlock cpython3 true w_full) = Return false).
Proof.
  intros payload.
  assert (H : In ("rescore_result", payload)
                (audit_events
                   (steps (rescore StubScorableBlock cpython3 true) w_full)))
    by (left; reflexivity).
  split; [exact H|].
  exact (result_event_reports_both_scores StubScorableBlock cpython3 true
           w_full payload H).
Defined.

Lemma failure_event_names_the_cause_witness :
  let payload := failure_audit StubScorableBlock "unanswered" in
  In ("rescore_failure", payload)
     (audit_events
        (steps (rescore StubScorableBlock cpython3 false) w_unanswered)) /\
  ((payload = failure_audit StubScorableBlock "unsupported" /\
    allows_rescore StubScorableBlock (block w_unanswered) = false) \/
   (payload = failure_audit StubScorableBlock "unanswered" /\
    get_score StubScorableBlock (block w_unanswered) = Return PNone) \/
   (payload = failure_audit StubScorableBlock "calculation error" /\
    exists e, calculate_score StubScorableBlock (block w_unanswered) = Raise e
              /\ is_Exception e = true)).
Proof.
  intros payload.
  assert (H : In ("rescore_failure", payload)
                (audit_events
                   (steps (rescore StubScorableBlock cpython3 false)
                          w_unanswered)))
    by (left; reflexivity).
  split; [exact H|].
  exact (failure_event_names_the_cause StubScorableBlock cpython3 false
           w_unanswered payload H).
Defined.

Lemma score_gt_strict_order_witness :
  score_gt full calculated = true /\
  score_gt calculated low = true /\
  score_gt full low = true /\
  score_gt low full = false.
Proof.
  split; [reflexivity|]. split; [reflexivity|].
  destruct score_gt_strict_order as (_ & Hasym & Htrans & _).
  pose proof (Htrans full calculated low eq_refl eq_refl) as H.
  split; [exact H | exact (Hasym full low H)].
Defined.

Lemma get_score_exception_propagates_witness :
  get_score (ScorableXBlockMixin stub_state "Here") (block w_low)
    = Raise NotImplementedError /\
  rescore (ScorableXBlockMixin stub_state "Here") cpython3 true w_low =
    (Raise NotImplementedError,
     World (block w_low) (heap w_low)
           (trace w_low ++ [Service "i18n"; Allows_rescore; Get_score])).
Proof.
  split; [reflexivity|].
  exact (get_score_exception_propagates (ScorableXBlockMixin stub_state "Here")
           cpython3 true w_low NotImplementedError eq_refl eq_refl).
Defined.

Lemma set_score_exception_propagates_witness :
  set_score UnsettableBlock (PScore calculated) (block w_low)
    = Raise NotImplementedError /\
  rescore UnsettableBlock cpython3 false w_low =
    (Raise NotImplementedError,
     World (block w_low) (heap w_low)
           (trace w_low ++ [Service "i18n"; Allows_rescore; Get_score;
                            Calculate_score; Set_score (PScore calculated)])).
Proof.
  split; [reflexivity|].
  exact (set_score_exception_propagates UnsettableBlock cpython3 false w_low
           low calculated NotImplementedError eq_refl eq_refl eq_refl
           (or_introl eq_refl) eq_refl).
Defined.

Lemma set_score_that_forgets_witness :
  get_score ForgetfulBlock (Stub PNone true) = Return PNone /\
  rescore ForgetfulBlock cpython3 false w_low =
    (Raise (AttributeError "'NoneType' object has no attribute 'earned'"),
     World (Stub PNone true) (heap w_low)
           (trace w_low ++ [Service "i18n"; Allows_rescore; Get_score;
                            Calculate_score; Set_score (PScore calculated);
                            Get_score])).
Proof.
  split; [reflexivity|].
  exact (set_score_that_forgets ForgetfulBlock cpython3 false w_low
           low calculated (Stub PNone true) eq_refl eq_refl eq_refl
           (or_introl eq_refl) eq_refl eq_refl).
Defined.

Lemma interrupt_is_not_swallowed_witness :
  is_Exception KeyboardInterrupt = false /\
  fst (rescore InterruptedBlock cpython3 false w_low) = Raise KeyboardInterrupt
  /\
  published_names (steps (rescore InterruptedBlock cpython3 false) w_low) = []
  /\
  set_score_calls (steps (rescore InterruptedBlock cpython3 false) w_low) = []
  /\
  block (snd (rescore InterruptedBlock cpython3 false w_low)) = block w_low.
Proof.
  split; [reflexivity|].
  exact (interrupt_is_not_swallowed InterruptedBlock cpython3 false w_low
           low KeyboardInterrupt eq_refl eq_refl eq_refl eq_refl).
Defined.

Lemma publish_grade_optional_flag_witness :
  get_score StubScorableBlock (block w_low) = Return (PScore low) /\
  exists (obj : loc) (grade : dict),
    steps (_publish_grade StubScorableBlock None) w_low
      = [Get_score; Publish "grade" obj grade] /\
    heap w_low !! obj = None /\
    grade !! "value" = Some (VNum 0) /\
    grade !! "max_value" = Some (VNum 1) /\
    grade !! "only_if_higher" = None /\
    (forall k : string,
       k <> "value" -> k <> "max_value" -> k <> "only_if_higher" ->
       grade !! k = None).
Proof.
  split; [reflexivity|].
  exact (proj2 (proj2 (publish_grade_optional_flag StubScorableBlock None
                         w_low low eq_refl))).
Defined.

Lemma publish_grade_without_score_witness :
  get_score StubScorableBlock (block w_unanswered) = Return PNone /\
  _publish_grade StubScorableBlock None w_unanswered =
    (Raise (AttributeError "'NoneType' object has no attribute 'earned'"),
     World (block w_unanswered) (heap w_unanswered)
           (trace w_unanswered ++ [Get_score])).
Proof.
  split; [reflexivity|].
  exact (publish_grade_without_score StubScorableBlock None w_unanswered
           eq_refl).
Defined.

Lemma rescore_only_if_higher_never_lowers_witness :
  persists StubScorableBlock (block w_full) calculated /\
  exists final : Score,
    get_score StubScorableBlock
      (block (snd (rescore StubScorableBlock cpython3 true w_full)))
      = Return (PScore final) /\
    (final = full \/ final = calculated) /\
    ~ lex_gt full final.
Proof.
  split; [exact (stub_persists _ _)|].
  exact (rescore_only_if_higher_never_lowers StubScorableBlock cpython3
           w_full full calculated (stub_persists _ _)
           eq_refl eq_refl eq_refl).
Defined.

Lemma second_rescore_changes_nothing_witness :
  let run := rescore StubScorableBlock cpython3 true in
  persists StubScorableBlock (block w_low) calculated /\
  fst (run (snd (run w_low))) = Return false /\
  block (snd (run (snd (run w_low)))) = block (snd (run w_low)) /\
  set_score_calls (steps run (snd (run w_low))) = [].
Proof.
  intros run. split; [exact (stub_persists _ _)|].
  apply (second_rescore_changes_nothing StubScorableBlock cpython3 w_low
           low calculated (stub_persists _ _) eq_refl eq_refl eq_refl).
  intros b' Hset. injection Hset as <-. split; reflexivity.
Defined.

Lemma two_events_are_two_objects_witness :
  let pub := _publish_scoring_event StubScorableBlock in
  let w1 := snd (pub "rescore_failure" 0%nat w_used) in
  let w2 := snd (pub "rescore_result" 0%nat w1) in
  heap w_used !! 0%nat = Some (failure_data "unsupported") /\
  exists (obj1 obj2 : loc) (payload : dict),
    steps (pub "rescore_failure" 0%nat) w_used
      = [Publish "rescore_failure" obj1 payload] /\
    steps (pub "rescore_result" 0%nat) w1
      = [Publish "rescore_result" obj2 payload] /\
    obj1 <> obj2 /\
    heap w2 !! obj1 = Some payload /\
    heap w2 !! obj2 = Some payload /\
    heap w2 !! 0%nat = Some (failure_data "unsupported").
Proof.
  intros pub w1 w2. split; [reflexivity|].
  exact (two_events_are_two_objects StubScorableBlock
           "rescore_failure" "rescore_result" 0
           (failure_data "unsupported") w_used eq_refl).
Defined.

Lemma grade_record_is_read_back_witness :
  let stored := mkScore (earned calculated / total calculated) 1 in
  set_score NormalizingBlock (PScore calculated) (block w_low)
    = Return (Stub (PScore stored) true) /\
  fst (rescore NormalizingBlock cpython3 false w_low) = Return true /\
  block (snd (rescore NormalizingBlock cpython3 false w_low))
    = Stub (PScore stored) true /\
  grade_records (steps (rescore NormalizingBlock cpython3 false) w_low)
    = [grade_record stored (Some false)] /\
  audit_events (steps (rescore NormalizingBlock cpython3 false) w_low)
    = [("rescore_result",
        result_audit NormalizingBlock "score updated" low calculated)].
Proof.
  intros stored. split; [reflexivity|].
  exact (grade_record_is_read_back NormalizingBlock cpython3 false w_low
           low calculated stored (Stub (PScore stored) true)
           eq_refl eq_refl eq_refl (or_introl eq_refl) eq_refl eq_refl).
Defined.



Lemma grade_record_of_stored_score_witness :
  let stored := mkScore (earned calculated / total calculated) 1 in
  allows_rescore NormalizingBlock (block w_low) = true /\
  get_score NormalizingBlock (block w_low) = Return (PScore low) /\
  calculate_score NormalizingBlock (block w_low) = Return (PScore calculated)
  /\
  set_score_calls (steps (rescore NormalizingBlock cpython3 false) w_low)
    = [PScore calculated] /\
  grade_records (steps (rescore NormalizingBlock cpython3 false) w_low)
    = [grade_record stored (Some false)].
Proof.
  intros stored.
  destruct (grade_record_of_stored_score NormalizingBlock cpython3 false
              w_low low calculated eq_refl eq_refl eq_refl
              (or_introl eq_refl))
    as (_ & Hstored & _).
  destruct (Hstored (Stub (PScore stored) true) stored eq_refl eq_refl)
    as [Hcalls Hrec].
  repeat split; try reflexivity; assumption.
Defined.
